(** * Verification of the reCAPTCHA bridge for React Native

    A shallow embedding of the two cooperating parts of the component:

    - [Template.getTemplate], the builder of the bridge document
      (the template literal of get-template);
    - [Controller], the handlers of the Recaptcha component
      (handleMessage, handleClose, handleOpen and the timer callback
      armed by handleOpen), over an explicit state holding the refs,
      the shared values, the loading flag and the pending timers.

    The host callbacks and the instructions injected into the WebView
    are recorded as a chronological list of effects. *)

From Stdlib Require Import String Ascii ZArith Bool.
From Stdlib Require Import SpecFloat.
From stdpp Require Import base option list gmap strings.

Local Open Scope string_scope.

(** The double-quote character, as a one-character string. *)
Definition dq : string := String (ascii_of_nat 34) EmptyString.

(** The rest of [s] after the literal [lit], when [s] starts with it. *)
Fixpoint strip_prefix (lit s : string) : option string :=
  match lit, s with
  | EmptyString, _ => Some s
  | String a lit', String b s' => if Ascii.eqb a b then strip_prefix lit' s' else None
  | String _ _, EmptyString => None
  end.

(** The rest of [hay] after the first occurrence of [needle]. *)
Fixpoint find_after (needle hay : string) : option string :=
  match strip_prefix needle hay with
  | Some rest => Some rest
  | None =>
      match hay with
      | EmptyString => None
      | String _ hay' => find_after needle hay'
      end
  end.

(** Whether a double quote occurs in [s]. *)
Fixpoint has_quote (s : string) : bool :=
  match s with
  | EmptyString => false
  | String c rest => Ascii.eqb c (ascii_of_nat 34) || has_quote rest
  end.

(** The characters of [s] before its first double quote: the value a
    reader of HTML takes for a double-quoted attribute, started just
    after the opening quote. *)
Fixpoint attribute_value (s : string) : string :=
  match s with
  | EmptyString => EmptyString
  | String c rest =>
      if Ascii.eqb c (ascii_of_nat 34) then EmptyString
      else String c (attribute_value rest)
  end.

(** The value of the first attribute [name] written with double
    quotes in [doc]. *)
Definition attribute (name doc : string) : option string :=
  option_map attribute_value (find_after (name +:+ "=" +:+ dq) doc).

(** * The bridge document builder *)
Module Template.

(** [RecaptchaSize] and [RecaptchaTheme] of the source. *)
Inductive RecaptchaSize : Type := invisible | normal | compact.
Inductive RecaptchaTheme : Type := dark | light.

(** [TemplateParams]: every field but [siteKey] is optional, an absent
    field reads as undefined. *)
Record TemplateParams : Type := {
  siteKey : string;
  size : option RecaptchaSize;
  theme : option RecaptchaTheme;
  lang : option string;
  action : option string;
  hideBadge : option bool;
  debug : option bool
}.

(** The text of a size, the string the union type stands for. *)
Definition size_text (s : RecaptchaSize) : string :=
  match s with
  | invisible => "invisible"
  | normal => "normal"
  | compact => "compact"
  end.

(** A substitution in a template literal: an absent value is printed
    as the word undefined. *)
Definition interpolate {A : Type} (show : A -> string) (x : option A) : string :=
  match x with
  | Some a => show a
  | None => "undefined"
  end.

(** The condition of [flag ? a : b] on an optional boolean: undefined
    and false take the second branch. *)
Definition flag_set (flag : option bool) : bool :=
  match flag with
  | Some true => true
  | _ => false
  end.

(** From the opening back-quote to the opening quote of the lang attribute. *)
Definition text_before_lang : string :=
  "
    <!DOCTYPE html>
    <html lang=" +:+ dq.

(** From the closing quote of lang to the endpoint segment of the script URL. *)
Definition text_before_endpoint : string :=
  dq +:+ ">
    <head>
        <meta charset=" +:+ dq +:+ "UTF-8" +:+ dq +:+ ">
        <meta name=" +:+ dq +:+ "viewport" +:+ dq +:+ " content=" +:+ dq +:+ "width=device-width, initial-scale=1.0" +:+ dq +:+ ">
        <title></title>

        <link rel=" +:+ dq +:+ "preconnect" +:+ dq +:+ " href=" +:+ dq +:+ "https://www.google.com" +:+ dq +:+ ">
        <link rel=" +:+ dq +:+ "preconnect" +:+ dq +:+ " href=" +:+ dq +:+ "https://www.gstatic.com" +:+ dq +:+ " crossorigin>
        
        <script src=" +:+ dq +:+ "https://www.google.com/recaptcha/".

(** From the script URL extension to the optional badge rule of the stylesheet. *)
Definition text_before_badge_rule : string :=
  ".js" +:+ dq +:+ " async defer></script>
        <script>
            function rerenderRecaptcha(){
                grecaptcha.render('recaptcha', {});
            }

            function onSubmit(token) {
                window.ReactNativeWebView.postMessage(JSON.stringify({
                    verify: token,
                }));
            }

            function onError(error) {
                window.ReactNativeWebView.postMessage(JSON.stringify({
                    error: error,
                }));
            }

            function onExpired() {
                window.ReactNativeWebView.postMessage(JSON.stringify({
                    expired: 'expired',
                }));
            }
        </script>
    
        <style>
            html,
            body,
            .container {
                height: 100%;
                width: 100%;
                margin: 0;
                padding: 0;
                display: flex;
                justify-content: center;
                align-items: center;
            }

            ".

(** From the end of the stylesheet to the opening quote of data-sitekey. *)
Definition text_before_siteKey : string :=
  "
        </style>
    </head>
    
    <body>
        <div class=" +:+ dq +:+ "container" +:+ dq +:+ ">
            <div id=" +:+ dq +:+ "recaptcha" +:+ dq +:+ "
                class=" +:+ dq +:+ "g-recaptcha" +:+ dq +:+ "
                data-sitekey=" +:+ dq.

(** From the closing quote of data-sitekey to the opening quote of data-size. *)
Definition text_before_size : string :=
  dq +:+ "
                data-callback=" +:+ dq +:+ "onSubmit" +:+ dq +:+ "
                data-size=" +:+ dq.

(** From the closing quote of data-size to the optional debug block. *)
Definition text_before_debug : string :=
  dq +:+ "
                data-error-callback=" +:+ dq +:+ "onError" +:+ dq +:+ "
                data-expired-callback=" +:+ dq +:+ "onExpired" +:+ dq +:+ ">
                
                ".

(** From the debug block to the closing back-quote. *)
Definition text_after_debug : string :=
  "
            </div>
        </div>
    </body>
    
    </html>".

(** The block shown when [debug] is set. *)
Definition debug_block : string :=
  "<div style=" +:+ dq +:+ "background-color:#00b9fc; color:#FFF; padding: 50px 50px; border-radius:5px" +:+ dq +:+ " onclick=" +:+ dq +:+ "rerenderRecaptcha()" +:+ dq +:+ "> Recarregar Captcha </div>".

(** The endpoint segment of the widget script: enterprise or api. *)
Definition endpoint (enterprise : option bool) : string :=
  if flag_set enterprise then "enterprise" else "api".

(** The stylesheet rule that hides the badge. *)
Definition badge_rule (p : TemplateParams) : string :=
  if flag_set (hideBadge p) then ".grecaptcha-badge{display:none}" else EmptyString.

(** [getTemplate(params, enterprise)]: the template literal, its six
    substitutions in the order of the source. The theme and action
    fields are not read. *)
Definition getTemplate (params : TemplateParams) (enterprise : option bool) : string :=
  text_before_lang +:+ interpolate id (lang params)
  +:+ text_before_endpoint +:+ endpoint enterprise
  +:+ text_before_badge_rule +:+ badge_rule params
  +:+ text_before_siteKey +:+ siteKey params
  +:+ text_before_size +:+ interpolate size_text (size params)
  +:+ text_before_debug +:+ (if flag_set (debug params) then debug_block else EmptyString)
  +:+ text_after_debug.

(** The document on both sides of each of the two free-text
    substitutions: up to the opening quote of the attribute, and from
    its closing quote on. *)
Definition before_lang : string := text_before_lang.

Definition after_lang (params : TemplateParams) (enterprise : option bool) : string :=
  text_before_endpoint +:+ endpoint enterprise
  +:+ text_before_badge_rule +:+ badge_rule params
  +:+ text_before_siteKey +:+ siteKey params
  +:+ text_before_size +:+ interpolate size_text (size params)
  +:+ text_before_debug +:+ (if flag_set (debug params) then debug_block else EmptyString)
  +:+ text_after_debug.

Definition before_siteKey (params : TemplateParams) (enterprise : option bool) : string :=
  text_before_lang +:+ interpolate id (lang params)
  +:+ text_before_endpoint +:+ endpoint enterprise
  +:+ text_before_badge_rule +:+ badge_rule params
  +:+ text_before_siteKey.

Definition after_siteKey (params : TemplateParams) : string :=
  text_before_size +:+ interpolate size_text (size params)
  +:+ text_before_debug +:+ (if flag_set (debug params) then debug_block else EmptyString)
  +:+ text_after_debug.

End Template.

(** * JSON values, as JSON.parse returns them *)
Module Json.

#[local] Set Warnings "-register-all".

(** A parsed JSON text. A number is an IEEE double, kept as the
    specification-level float of the Standard Library. *)
Inductive json : Type :=
| JNull
| JBool (b : bool)
| JNumber (x : spec_float)
| JString (s : string)
| JArray (items : list json)
| JObject (members : list (string * json)).

(** The condition of [if (v)]: null, false, zero, NaN and the empty
    string are falsy, every array and object is truthy. *)
Definition truthy (v : json) : bool :=
  match v with
  | JNull => false
  | JBool b => b
  | JNumber (S754_zero _) => false
  | JNumber S754_nan => false
  | JNumber _ => true
  | JString EmptyString => false
  | JString _ => true
  | JArray _ => true
  | JObject _ => true
  end.

(** The value of a member of a parsed object; of a repeated name the
    last occurrence counts. *)
Fixpoint member (name : string) (members : list (string * json)) : option json :=
  match members with
  | [] => None
  | (n, v) :: rest =>
      match member name rest with
      | Some w => Some w
      | None => if String.eqb name n then Some v else None
      end
  end.

(** The condition of [if (payload.key)] on the result of a property
    read, [None] being undefined. *)
Definition truthy_property (o : option json) : bool :=
  match o with
  | Some v => truthy v
  | None => false
  end.

End Json.

(** * The messages the bridge document posts

    JSON.parse belongs to the platform: the controller is verified for
    an arbitrary parser, and [parse_message] below reads the texts the
    callbacks of the bridge document produce with JSON.stringify: one
    object whose values are strings without escapes, true, false or
    null, with no white space. It instantiates the parser wherever a
    scenario is run on a concrete message text. *)
Module Wire.
Import Json.

(** A string between double quotes on the wire. *)
Definition quoted (s : string) : string := dq +:+ s +:+ dq.

(** The characters up to the next double quote, and the rest after it;
    a backslash (an escape) is outside this fragment. *)
Fixpoint read_string (s : string) : option (string * string) :=
  match s with
  | EmptyString => None
  | String c rest =>
      if Ascii.eqb c (ascii_of_nat 34) then Some (EmptyString, rest)
      else if Ascii.eqb c (ascii_of_nat 92) then None
      else match read_string rest with
           | Some (body, rest') => Some (String c body, rest')
           | None => None
           end
  end.

(** A value of the fragment: a string, true, false or null. *)
Definition read_value (s : string) : option (json * string) :=
  match s with
  | String c rest =>
      if Ascii.eqb c (ascii_of_nat 34) then
        match read_string rest with
        | Some (body, rest') => Some (JString body, rest')
        | None => None
        end
      else match strip_prefix "true" s with
           | Some r => Some (JBool true, r)
           | None =>
               match strip_prefix "false" s with
               | Some r => Some (JBool false, r)
               | None =>
                   match strip_prefix "null" s with
                   | Some r => Some (JNull, r)
                   | None => None
                   end
               end
           end
  | EmptyString => None
  end.

(** The members of an object after the opening brace, up to the end
    of the text; [fuel] bounds the number of members. *)
Fixpoint read_members (fuel : nat) (s : string) : option (list (string * json)) :=
  match fuel with
  | O => None
  | S fuel' =>
      match strip_prefix dq s with
      | None => None
      | Some s1 =>
          match read_string s1 with
          | None => None
          | Some (name, s2) =>
              match strip_prefix ":" s2 with
              | None => None
              | Some s3 =>
                  match read_value s3 with
                  | None => None
                  | Some (v, s4) =>
                      match s4 with
                      | String c EmptyString =>
                          if Ascii.eqb c "}" then Some [(name, v)] else None
                      | String c s5 =>
                          if Ascii.eqb c "," then
                            match read_members fuel' s5 with
                            | Some ms => Some ((name, v) :: ms)
                            | None => None
                            end
                          else None
                      | EmptyString => None
                      end
                  end
              end
          end
      end
  end.

(** The parser of the fragment: [None] stands for the SyntaxError
    JSON.parse throws. *)
Definition parse_message (data : string) : option json :=
  match data with
  | String c rest =>
      if Ascii.eqb c "{" then
        match rest with
        | String d EmptyString => if Ascii.eqb d "}" then Some (JObject []) else None
        | _ => option_map JObject (read_members (String.length rest) rest)
        end
      else None
  | EmptyString => None
  end.

(** The message [{key: value}] as JSON.stringify writes it, for a
    string value. *)
Definition message_text (key value : string) : string :=
  "{" +:+ quoted key +:+ ":" +:+ quoted value +:+ "}".

End Wire.

(** * The bridge controller *)
Module Controller.
Import Json.
Local Open Scope list_scope.

(** What a try block may catch: the SyntaxError of JSON.parse and the
    TypeError of a property read on null. *)
Inductive exn : Type := SyntaxError | TypeError.

(** The two scripts handed to injectJavaScript: [grecaptcha.reset()]
    and [grecaptcha.execute()], each followed by [true]. *)
Inductive script : Type := grecaptcha_reset | grecaptcha_execute.

(** What leaves the component: a script injected into the WebView, a
    call of a host callback, a console warning. *)
Inductive effect : Type :=
| InjectJavaScript (code : script)
| CallOnVerify (token : json)
| CallOnExpire
| CallOnError (error : json)
| CallOnClose
| ConsoleWarn (e : exn).

(** The four keys handleMessage reads from the payload. *)
Inductive key : Type := verify | expired | error | onReady.

Definition key_name (k : key) : string :=
  match k with
  | verify => "verify"
  | expired => "expired"
  | error => "error"
  | onReady => "onReady"
  end.

(** The props the handlers read: whether each callback was supplied
    (each call is guarded by [cb && cb(...)]), and the timeout in
    milliseconds. A supplied callback is taken to return normally,
    and the props are taken to be the same at every render, so that
    the memoised handleMessage and the handlers of the imperative
    handle close over the same callbacks. *)
Record props : Type := {
  onVerify : bool;
  onExpire : bool;
  onError : bool;
  onClose : bool;
  timeout : option Z
}.

(** The mutable cells of the component and the pending timers of the
    runtime. [timers] maps the handle of every timer that was set and
    has neither fired nor been cleared to its delay; [next_handle] is
    the handle the next setTimeout returns. *)
Record state : Type := {
  webView_current : bool;
  timeout_current : option nat;
  loading : bool;
  captchaLoaded_current : bool;
  containerOpacity : Z;
  containerZIndex : Z;
  timers : gmap nat Z;
  next_handle : nat
}.

(** The component as mounted: the WebView ref is set, the overlay is
    transparent and behind, no timer was ever set. A handle is a
    Timeout object of the runtime, truthy whatever its number; the
    numbers start at 1. *)
Definition mounted : state :=
  {| webView_current := true;
     timeout_current := None;
     loading := true;
     captchaLoaded_current := false;
     containerOpacity := 0;
     containerZIndex := -1000;
     timers := ∅;
     next_handle := 1 |}.

(** The overlay as handleOpen leaves it, and as handleClose and the
    timer callback leave it. *)
Definition visible (s : state) : Prop :=
  containerOpacity s = 1%Z ∧ containerZIndex s = 100000%Z.
Definition hidden (s : state) : Prop :=
  containerOpacity s = 0%Z ∧ containerZIndex s = (-1000)%Z.

(** ** Statements: state, effects and exceptions *)

Inductive completion (A : Type) : Type :=
| Normal (a : A)
| Throw (e : exn).
Arguments Normal {A} a.
Arguments Throw {A} e.

(** A statement maps the state to how it completes, the new state and
    the effects it had, oldest first. *)
Definition M (A : Type) : Type := state → completion A * state * list effect.

Definition ret {A : Type} (a : A) : M A := λ s, (Normal a, s, []).

Definition throw {A : Type} (e : exn) : M A := λ s, (Throw e, s, []).

Definition bind {A B : Type} (m : M A) (f : A → M B) : M B := λ s,
  match m s with
  | (Normal a, s1, w1) =>
      match f a s1 with
      | (c, s2, w2) => (c, s2, w1 ++ w2)
      end
  | (Throw e, s1, w1) => (Throw e, s1, w1)
  end.

(** [try { body } catch (e) { handler e }] *)
Definition try_catch {A : Type} (body : M A) (handler : exn → M A) : M A := λ s,
  match body s with
  | (Normal a, s1, w1) => (Normal a, s1, w1)
  | (Throw e, s1, w1) =>
      match handler e s1 with
      | (c, s2, w2) => (c, s2, w1 ++ w2)
      end
  end.

Declare Scope stmt_scope.
Delimit Scope stmt_scope with stmt.
Notation "'let*' x ':=' m 'in' k" := (bind m (λ x, k))
  (at level 10, x name, m at level 100, k at level 200) : stmt_scope.
Notation "m '>>' k" := (bind m (λ _, k))
  (at level 90, right associativity) : stmt_scope.
Local Open Scope stmt_scope.

Definition emit (e : effect) : M unit := λ s, (Normal tt, s, [e]).

Definition update (f : state → state) : M unit := λ s, (Normal tt, f s, []).

Definition read {A : Type} (f : state → A) : M A := λ s, (Normal (f s), s, []).

(** [cond && action] *)
Definition when (cond : bool) (action : M unit) : M unit :=
  if cond then action else ret tt.

(** ** The cells *)

Definition set_timeout_current (h : option nat) (s : state) : state :=
  {| webView_current := webView_current s;
     timeout_current := h;
     loading := loading s;
     captchaLoaded_current := captchaLoaded_current s;
     containerOpacity := containerOpacity s;
     containerZIndex := containerZIndex s;
     timers := timers s;
     next_handle := next_handle s |}.

Definition setLoading (b : bool) (s : state) : state :=
  {| webView_current := webView_current s;
     timeout_current := timeout_current s;
     loading := b;
     captchaLoaded_current := captchaLoaded_current s;
     containerOpacity := containerOpacity s;
     containerZIndex := containerZIndex s;
     timers := timers s;
     next_handle := next_handle s |}.

Definition set_captchaLoaded_current (b : bool) (s : state) : state :=
  {| webView_current := webView_current s;
     timeout_current := timeout_current s;
     loading := loading s;
     captchaLoaded_current := b;
     containerOpacity := containerOpacity s;
     containerZIndex := containerZIndex s;
     timers := timers s;
     next_handle := next_handle s |}.

Definition set_containerOpacity (v : Z) (s : state) : state :=
  {| webView_current := webView_current s;
     timeout_current := timeout_current s;
     loading := loading s;
     captchaLoaded_current := captchaLoaded_current s;
     containerOpacity := v;
     containerZIndex := containerZIndex s;
     timers := timers s;
     next_handle := next_handle s |}.

Definition set_containerZIndex (v : Z) (s : state) : state :=
  {| webView_current := webView_current s;
     timeout_current := timeout_current s;
     loading := loading s;
     captchaLoaded_current := captchaLoaded_current s;
     containerOpacity := containerOpacity s;
     containerZIndex := v;
     timers := timers s;
     next_handle := next_handle s |}.

Definition set_timers (t : gmap nat Z) (n : nat) (s : state) : state :=
  {| webView_current := webView_current s;
     timeout_current := timeout_current s;
     loading := loading s;
     captchaLoaded_current := captchaLoaded_current s;
     containerOpacity := containerOpacity s;
     containerZIndex := containerZIndex s;
     timers := t;
     next_handle := n |}.

(** ** The runtime *)

(** [setTimeout(callback, delay)]: a fresh handle, pending from now
    on. Every timer of the component carries the same callback,
    [timeout_callback] below. *)
Definition setTimeout (delay : Z) : M nat := λ s,
  let h := next_handle s in
  (Normal h, set_timers (<[h := delay]> (timers s)) (S h) s, []).

(** [clearTimeout(h)]: the timer is pending no more; clearing a timer
    that fired or was cleared does nothing. *)
Definition clearTimeout (h : nat) : M unit :=
  update (λ s, set_timers (delete h (timers s)) (next_handle s) s).

(** [$webView.current?.injectJavaScript(code)] *)
Definition injectJavaScript (code : script) : M unit :=
  let* attached := read webView_current in
  when attached (emit (InjectJavaScript code)).

(** [payload.key]: a TypeError on null, the member of an object, and
    undefined on every other value, none of which has a property of
    one of the four names. *)
Definition get (payload : json) (k : key) : M (option json) :=
  match payload with
  | JNull => throw TypeError
  | JObject members => ret (member (key_name k) members)
  | _ => ret None
  end.

(** [if (payload.key) { action(payload.key) }] *)
Definition if_key (payload : json) (k : key) (action : json → M unit) : M unit :=
  let* o := get payload k in
  match o with
  | Some v => if truthy v then action v else ret tt
  | None => ret tt
  end.

(** [if (timeout.current) clearTimeout(timeout.current)]: the ref
    keeps the handle. *)
Definition clear_timeout_ref : M unit :=
  let* h := read timeout_current in
  match h with
  | Some h => clearTimeout h
  | None => ret tt
  end.

Section Handlers.

(** The parser of the platform: [None] when JSON.parse throws. *)
Variable JSON_parse : string → option json.

(** The props of the render the handlers close over. *)
Variable p : props.

Definition parse (data : string) : M json :=
  match JSON_parse data with
  | Some v => ret v
  | None => throw SyntaxError
  end.

(** [handleClose] *)
Definition handleClose : M unit :=
  update (set_containerOpacity 0) >>
  update (set_containerZIndex (-1000)) >>
  injectJavaScript grecaptcha_reset >>
  when (onClose p) (emit CallOnClose).

(** [handleMessage]: the timer of the ref is cleared whatever the
    message, then the four keys are tested one after the other. *)
Definition handleMessage (data : string) : M unit :=
  clear_timeout_ref >>
  try_catch
    (let* payload := parse data in
     if_key payload verify
       (λ token, handleClose >> when (onVerify p) (emit (CallOnVerify token))) >>
     if_key payload expired
       (λ _, handleClose >> when (onExpire p) (emit CallOnExpire)) >>
     if_key payload error
       (λ reason, handleClose >> when (onError p) (emit (CallOnError reason))) >>
     if_key payload onReady
       (λ _, update (set_captchaLoaded_current true)))
    (λ e, emit (ConsoleWarn e)).

(** [_timeout ?? 30000] *)
Definition timeout_delay : Z := default 30000%Z (timeout p).

(** The callback handleOpen hands to setTimeout. *)
Definition timeout_callback : M unit :=
  when (onError p) (emit (CallOnError (JString "timeout"))) >>
  update (set_containerOpacity 0) >>
  update (set_containerZIndex (-1000)) >>
  injectJavaScript grecaptcha_reset >>
  update (setLoading false).

(** [handleOpen] *)
Definition handleOpen : M unit :=
  injectJavaScript grecaptcha_reset >>
  (let* h := setTimeout timeout_delay in
   update (set_timeout_current (Some h))) >>
  update (set_containerOpacity 1) >>
  update (set_containerZIndex 100000) >>
  injectJavaScript grecaptcha_execute >>
  update (setLoading true).

(** [stopLoading], the onLoadEnd handler of the WebView. *)
Definition stopLoading : M unit := update (setLoading false).

(** ** The event loop *)

(** What the environment may do next: the host calls open or close,
    the WebView posts a message or ends loading, a timer comes due. *)
Inductive event : Type :=
| Open
| Close
| Message (data : string)
| TimerFires (h : nat)
| LoadEnd.

(** The runtime runs the callback of a timer only while the timer is
    pending, and the timer is spent by it. *)
Definition fire (h : nat) : M unit :=
  let* pending := read (λ s, timers s !! h) in
  match pending with
  | Some _ => clearTimeout h >> timeout_callback
  | None => ret tt
  end.

Definition dispatch (ev : event) : M unit :=
  match ev with
  | Open => handleOpen
  | Close => handleClose
  | Message data => handleMessage data
  | TimerFires h => fire h
  | LoadEnd => stopLoading
  end.

(** One turn of the loop: the state after the handler and its effects.
    No handler lets an exception out (see [dispatch_completes]). *)
Definition step (ev : event) (s : state) : state * list effect :=
  match dispatch ev s with
  | (_, s', w) => (s', w)
  end.

Fixpoint run (evs : list event) (s : state) : state * list effect :=
  match evs with
  | [] => (s, [])
  | ev :: rest =>
      match step ev s with
      | (s1, w1) =>
          match run rest s1 with
          | (s2, w2) => (s2, w1 ++ w2)
          end
      end
  end.

End Handlers.

(** ** Observations on a list of effects *)

Definition is_onVerify (e : effect) : bool :=
  match e with CallOnVerify _ => true | _ => false end.
Definition is_onExpire (e : effect) : bool :=
  match e with CallOnExpire => true | _ => false end.
Definition is_onError (e : effect) : bool :=
  match e with CallOnError _ => true | _ => false end.
Definition is_onClose (e : effect) : bool :=
  match e with CallOnClose => true | _ => false end.
Definition is_timeout_error (e : effect) : bool :=
  match e with CallOnError (JString reason) => String.eqb reason "timeout" | _ => false end.
Definition is_host_callback (e : effect) : bool :=
  match e with
  | CallOnVerify _ | CallOnExpire | CallOnError _ | CallOnClose => true
  | _ => false
  end.

(** How many effects of a list satisfy a test. *)
Definition calls (test : effect → bool) (w : list effect) : nat :=
  length (List.filter test w).

(** ** The effects of the handlers, written out

    The lists the theorems compare the handlers with. *)

(** The overlay moved out of sight, as handleClose and the timer
    callback leave it. *)
Definition closed (s : state) : state :=
  set_containerZIndex (-1000) (set_containerOpacity 0 s).

(** What handleClose does besides moving the overlay. *)
Definition close_effects (p : props) (s : state) : list effect :=
  (if webView_current s then [InjectJavaScript grecaptcha_reset] else [])
  ++ (if onClose p then [CallOnClose] else []).

(** The host callback of a key, when the host supplied it. *)
Definition callback_effects (p : props) (k : key) (v : json) : list effect :=
  match k with
  | verify => if onVerify p then [CallOnVerify v] else []
  | expired => if onExpire p then [CallOnExpire] else []
  | error => if onError p then [CallOnError v] else []
  | onReady => []
  end.

(** What one terminal key of a payload adds: nothing unless its value
    is truthy, else a close followed by the callback. *)
Definition outcome_effects (p : props) (s : state) (k : key)
    (members : list (string * json)) : list effect :=
  match member (key_name k) members with
  | Some v => if truthy v then close_effects p s ++ callback_effects p k v else []
  | None => []
  end.

(** Whether the payload carries a truthy value under a key. *)
Definition present (k : key) (members : list (string * json)) : bool :=
  truthy_property (member (key_name k) members).

(** The state with the timer of the ref cleared, as the first
    statement of handleMessage leaves it. *)
Definition timer_cleared (s : state) : state :=
  match timeout_current s with
  | Some h => set_timers (delete h (timers s)) (next_handle s) s
  | None => s
  end.

(** The state handleOpen leaves: a fresh timer pending and held by
    the ref, the overlay in front, the loading flag set. *)
Definition opened (p : props) (s : state) : state :=
  {| webView_current := webView_current s;
     timeout_current := Some (next_handle s);
     loading := true;
     captchaLoaded_current := captchaLoaded_current s;
     containerOpacity := 1;
     containerZIndex := 100000;
     timers := <[next_handle s := timeout_delay p]> (timers s);
     next_handle := S (next_handle s) |}.

(** The two scripts handleOpen injects. *)
Definition open_effects (s : state) : list effect :=
  if webView_current s
  then [InjectJavaScript grecaptcha_reset; InjectJavaScript grecaptcha_execute]
  else [].

(** The state the callback of timer [h] leaves: the timer spent, the
    overlay closed, the loading flag down. *)
Definition timed_out (h : nat) (s : state) : state :=
  setLoading false (closed (set_timers (delete h (timers s)) (next_handle s) s)).

(** What the timer callback does besides: the error callback first,
    then the reset. *)
Definition timeout_effects (p : props) (s : state) : list effect :=
  (if onError p then [CallOnError (JString "timeout")] else [])
  ++ (if webView_current s then [InjectJavaScript grecaptcha_reset] else []).

(** The state handleMessage leaves for a payload that is an object:
    the timer of the ref cleared, the overlay closed when a terminal
    key is truthy, the loaded flag set when onReady is. *)
Definition after_message (s : state) (members : list (string * json)) : state :=
  let s0 := timer_cleared s in
  let s1 :=
    if present verify members || present expired members || present error members
    then closed s0 else s0 in
  if present onReady members then set_captchaLoaded_current true s1 else s1.

End Controller.

(** * The scenarios the properties are tried on *)
Module Scenario.
Import Json Wire Controller.

(** A host that supplies the four callbacks and no timeout. *)
Definition host : props :=
  {| onVerify := true; onExpire := true; onError := true; onClose := true;
     timeout := None |}.

Definition verify_message : string := message_text "verify" "tok-123".
Definition expired_message : string := message_text "expired" "expired".
Definition error_message : string := message_text "error" "network".
Definition timeout_message : string := message_text "error" "timeout".
Definition empty_token_message : string := message_text "verify" EmptyString.
Definition ready_message : string := "{" +:+ quoted "onReady" +:+ ":true}".
Definition verify_and_error_message : string :=
  "{" +:+ quoted "verify" +:+ ":" +:+ quoted "tok-123" +:+ ","
      +:+ quoted "error" +:+ ":" +:+ quoted "network" +:+ "}".
Definition unready_message : string := "{" +:+ quoted "onReady" +:+ ":false}".
Definition malformed_message : string := "not json".

(** The runs of the scenarios, on the parser of the wire fragment. *)
Definition play (evs : list event) : state * list effect :=
  run parse_message host evs mounted.

(** A configuration whose site key holds a double quote. *)
Definition breaking_params : Template.TemplateParams :=
  {| Template.siteKey := "KEY" +:+ dq +:+ " data-callback=" +:+ dq +:+ "evil";
     Template.size := Some Template.invisible;
     Template.theme := Some Template.light;
     Template.lang := Some "en";
     Template.action := None;
     Template.hideBadge := None;
     Template.debug := None |}.

(** Two configurations that differ only where getTemplate does not
    look: the theme, the action, and false against undefined. *)
Definition plain_params : Template.TemplateParams :=
  {| Template.siteKey := "KEY";
     Template.size := Some Template.invisible;
     Template.theme := Some Template.light;
     Template.lang := Some "en";
     Template.action := None;
     Template.hideBadge := None;
     Template.debug := None |}.

Definition themed_params : Template.TemplateParams :=
  {| Template.siteKey := "KEY";
     Template.size := Some Template.invisible;
     Template.theme := Some Template.dark;
     Template.lang := Some "en";
     Template.action := Some "login";
     Template.hideBadge := Some false;
     Template.debug := Some false |}.

End Scenario.

(** * Scanning a document

    What the properties of the generated document are stated with:
    tests on a text that are decided by its own characters, so that
    a search can be carried over a text of which only a part is
    known. *)
Module Scan.

(** Whether the character [c] occurs in [s]. *)
Fixpoint has_char (c : ascii) (s : string) : bool :=
  match s with
  | EmptyString => false
  | String x rest => Ascii.eqb x c || has_char c rest
  end.

(** Whether [s] starts with the character [c]. *)
Definition starts_with (c : ascii) (s : string) : bool :=
  match s with
  | String x _ => Ascii.eqb x c
  | EmptyString => false
  end.

(** Read from the left, [needle] has the character [e] before any
    [q]. *)
Fixpoint guarded (e q : ascii) (needle : string) : bool :=
  match needle with
  | EmptyString => false
  | String c rest => Ascii.eqb c e || (negb (Ascii.eqb c q) && guarded e q rest)
  end.

(** [needle] differs from [a] at a character of [a]: it is no prefix
    of [a], whatever follows [a]. *)
Fixpoint mismatch (needle a : string) : bool :=
  match needle, a with
  | String x needle', String y a' => if Ascii.eqb x y then mismatch needle' a' else true
  | _, _ => false
  end.

(** No occurrence of [needle] starts in [a], whatever follows [a]. *)
Fixpoint clear_of (needle a : string) : bool :=
  match a with
  | EmptyString => true
  | String _ a' => mismatch needle a && clear_of needle a'
  end.

(** The rest of [a] after the first occurrence of [needle], when that
    occurrence lies in [a] and every earlier position is ruled out by
    [a] itself. *)
Fixpoint locate (needle a : string) : option string :=
  match strip_prefix needle a with
  | Some rest => Some rest
  | None =>
      match a with
      | EmptyString => None
      | String _ a' => if mismatch needle a then locate needle a' else None
      end
  end.

(** Whether [needle] occurs in [hay]. *)
Definition contains (needle hay : string) : bool :=
  match find_after needle hay with
  | Some _ => true
  | None => false
  end.

End Scan.

(** * The rest of the component

    What the Recaptcha component does around its handlers: the
    loading indicator, the navigation guard, the default props and
    the memoised document. *)
Module Component.
Import Json Controller.
Local Open Scope list_scope.

(** The props renderLoading reads: [hideLoader], and whether a
    (truthy) [loadingComponent] was supplied. *)
Record loader_props : Type := {
  hideLoader : option bool;
  loadingComponent : bool
}.

(** What renderLoading returns: null, the component of the host, or
    the large ActivityIndicator. *)
Inductive indicator : Type := NoIndicator | HostIndicator | ActivityIndicator.

(** [renderLoading] *)
Definition renderLoading (lp : loader_props) (s : state) : indicator :=
  if negb (loading s) || Template.flag_set (hideLoader lp) then NoIndicator
  else if loadingComponent lp then HostIndicator else ActivityIndicator.

(** The one method of the WebView the navigation guard calls. *)
Inductive webview_call : Type := StopLoading.

(** [handleNavigationStateChange]: the calls it makes on the WebView. *)
Definition handleNavigationStateChange (s : state) : list webview_call :=
  if negb (loading s)
  then (if webView_current s then [StopLoading] else [])
  else [].

(** A script handed to the WebView. *)
Definition is_inject (e : effect) : bool :=
  match e with InjectJavaScript _ => true | _ => false end.

(** The events that come from the widget or from a close() of the
    host: neither sets a timer nor ends a load. *)
Definition message_or_close (ev : event) : bool :=
  match ev with
  | Message _ | Close => true
  | _ => false
  end.

(** The handles of the runtime are fresh: none at or above the next
    one is pending. *)
Definition fresh (s : state) : Prop :=
  ∀ h : nat, (next_handle s ≤ h)%nat → timers s !! h = None.

(** The state but for the loaded flag. *)
Definition forget_loaded (s : state) : state := set_captchaLoaded_current false s.

(** Whether a message, as the parser reads it, carries a truthy
    verify, expired or error. *)
Definition carries_outcome (JSON_parse : string → option json) (data : string) : bool :=
  match JSON_parse data with
  | Some (JObject ms) => present verify ms || present expired ms || present error ms
  | _ => false
  end.

End Component.

(** * The document of the component *)
Module Render.

(** The props of the component that reach the document. *)
Record RecaptchaProps : Type := {
  lang : option string;
  siteKey : string;
  size : option Template.RecaptchaSize;
  theme : option Template.RecaptchaTheme;
  hideBadge : option bool;
  enterprise : option bool;
  debug : option bool
}.

(** [Recaptcha.defaultProps]: a size, a theme and an enterprise flag
    the host left undefined are invisible, light and false. *)
Definition defaultProps (props : RecaptchaProps) : RecaptchaProps :=
  {| lang := lang props;
     siteKey := siteKey props;
     size := Some (default Template.invisible (size props));
     theme := Some (default Template.light (theme props));
     hideBadge := hideBadge props;
     enterprise := Some (default false (enterprise props));
     debug := debug props |}.

(** The call of getTemplate inside useMemo. *)
Definition html (props : RecaptchaProps) : string :=
  Template.getTemplate
    {| Template.siteKey := siteKey props;
       Template.size := size props;
       Template.theme := theme props;
       Template.lang := lang props;
       Template.action := None;
       Template.hideBadge := hideBadge props;
       Template.debug := debug props |}
    (enterprise props).

#[global] Instance RecaptchaSize_eq_dec : EqDecision Template.RecaptchaSize.
Proof. solve_decision. Defined.

#[global] Instance RecaptchaTheme_eq_dec : EqDecision Template.RecaptchaTheme.
Proof. solve_decision. Defined.

(** The dependency array of the useMemo:
    [hideBadge, siteKey, size, theme, lang, enterprise]. *)
Definition html_deps (props : RecaptchaProps)
  : option bool * string * option Template.RecaptchaSize * option Template.RecaptchaTheme
    * option string * option bool :=
  (hideBadge props, siteKey props, size props, theme props, lang props, enterprise props).

(** [useMemo]: the cell keeps the dependencies and the value of the
    last computation; a render computes anew when a dependency is not
    the same as in the cell, and returns the value of the cell
    otherwise. *)
Definition useMemo_html
    (cell : option (option bool * string * option Template.RecaptchaSize
                    * option Template.RecaptchaTheme * option string * option bool
                    * string))
    (props : RecaptchaProps) :=
  match cell with
  | Some (deps, value) =>
      if bool_decide (deps = html_deps props) then (deps, value)
      else (html_deps props, html props)
  | None => (html_deps props, html props)
  end.

(** The document of the render of [props] that follows the renders of
    [earlier], oldest first. *)
Fixpoint rendered (earlier : list RecaptchaProps) (props : RecaptchaProps)
    (cell : option (option bool * string * option Template.RecaptchaSize
                    * option Template.RecaptchaTheme * option string * option bool
                    * string)) : string :=
  match earlier with
  | [] => snd (useMemo_html cell props)
  | first :: rest => rendered rest props (Some (useMemo_html cell first))
  end.

End Render.

(** * The callbacks of the bridge document

    The three functions the script of the document defines. Each
    posts one text: JSON.stringify of an object literal with one
    property. JSON.stringify belongs to the platform, like JSON.parse;
    what is kept of it here is that it leaves out a property whose
    value is undefined. *)
Module Bridge.
Import Json.

(** The properties of an object literal that JSON.stringify writes;
    [None] is the value undefined. *)
Fixpoint written (fields : list (string * option json)) : list (string * json) :=
  match fields with
  | [] => []
  | (name, Some v) :: rest => (name, v) :: written rest
  | (_, None) :: rest => written rest
  end.

Section Script.

Variable JSON_stringify : json → string.

(** [function onSubmit(token)]: the text it posts. *)
Definition onSubmit (token : option json) : string :=
  JSON_stringify (JObject (written [("verify", token)])).

(** [function onError(error)]: the text it posts. *)
Definition onError (error : option json) : string :=
  JSON_stringify (JObject (written [("error", error)])).

(** [function onExpired()]: the text it posts. *)
Definition onExpired : string :=
  JSON_stringify (JObject (written [("expired", Some (JString "expired"))])).

End Script.

End Bridge.

(** * The inputs the further properties are tried on *)
Module Trial.
Import Json Wire Controller.

(** A configuration with a site key and nothing else. *)
Definition bare_params : Template.TemplateParams :=
  {| Template.siteKey := "6Lc_KEY-01";
     Template.size := None;
     Template.theme := None;
     Template.lang := None;
     Template.action := None;
     Template.hideBadge := None;
     Template.debug := None |}.

(** A configuration with every field set. *)
Definition full_params : Template.TemplateParams :=
  {| Template.siteKey := "6Lc_KEY-01";
     Template.size := Some Template.compact;
     Template.theme := Some Template.dark;
     Template.lang := Some "pt-BR";
     Template.action := None;
     Template.hideBadge := Some true;
     Template.debug := Some true |}.

(** The props of a host that gives a site key and nothing else, and
    the same with debug switched on. *)
Definition bare_props : Render.RecaptchaProps :=
  {| Render.lang := None;
     Render.siteKey := "6Lc_KEY-01";
     Render.size := None;
     Render.theme := None;
     Render.hideBadge := None;
     Render.enterprise := None;
     Render.debug := None |}.

Definition debug_props : Render.RecaptchaProps :=
  {| Render.lang := None;
     Render.siteKey := "6Lc_KEY-01";
     Render.size := None;
     Render.theme := None;
     Render.hideBadge := None;
     Render.enterprise := None;
     Render.debug := Some true |}.

(** The mounted component before its WebView ref is set. *)
Definition detached : state :=
  {| webView_current := false;
     timeout_current := None;
     loading := true;
     captchaLoaded_current := false;
     containerOpacity := 0;
     containerZIndex := -1000;
     timers := ∅;
     next_handle := 1 |}.

(** A host that hides no loader and supplies no loading component. *)
Definition plain_loader : Component.loader_props :=
  {| Component.hideLoader := None; Component.loadingComponent := false |}.

(** The parser of the wire fragment, extended with the text null. *)
Definition parse_trial (data : string) : option json :=
  if String.eqb data "null" then Some JNull else parse_message data.

(** JSON.stringify on the objects of the wire fragment: the empty
    object and the objects with one string. *)
Definition stringify_trial (v : json) : string :=
  match v with
  | JObject [] => "{}"
  | JObject [(name, JString value)] => message_text name value
  | _ => "null"
  end.

End Trial.

(** * Properties of the bridge document builder *)
Section TemplateProperties.
Import Template.

Lemma append_assoc (a b c : string) : (a +:+ b) +:+ c = a +:+ b +:+ c.
Proof. induction a as [|x a IH]; [reflexivity | exact (f_equal (String x) IH)]. Qed.

(** Reading an attribute value never returns a double quote. *)
Lemma attribute_value_no_quote (s : string) : has_quote (attribute_value s) = false.
Proof.
  induction s as [|c s IH]; simpl; [reflexivity|].
  destruct (Ascii.eqb c (ascii_of_nat 34)) eqn:E; simpl; [reflexivity|].
  now rewrite E, IH.
Qed.

(** A value without a double quote is read back whole when a double
    quote follows it. *)
Lemma attribute_value_closed (v rest : string) :
  has_quote v = false → attribute_value (v +:+ dq +:+ rest) = v.
Proof.
  induction v as [|c v IH]; simpl; [reflexivity|].
  destruct (Ascii.eqb c (ascii_of_nat 34)); simpl; [discriminate|].
  intros H. now rewrite IH.
Qed.

Lemma attribute_value_iff (v rest : string) :
  attribute_value (v +:+ dq +:+ rest) = v ↔ has_quote v = false.
Proof.
  split.
  - intros H. rewrite <- H. apply attribute_value_no_quote.
  - apply attribute_value_closed.
Qed.

(** The text after each free-text substitution opens with the double
    quote that closes its attribute. *)
Lemma after_siteKey_closes (p : TemplateParams) :
  ∃ rest, after_siteKey p = dq +:+ rest.
Proof. unfold after_siteKey, text_before_size. rewrite append_assoc. eexists. reflexivity. Qed.

Lemma after_lang_closes (p : TemplateParams) (e : option bool) :
  ∃ rest, after_lang p e = dq +:+ rest.
Proof. unfold after_lang, text_before_endpoint. rewrite append_assoc. eexists. reflexivity. Qed.

(** C6 (amended): getTemplate inserts siteKey and lang as they are,
    without escaping: the document is the text up to the opening quote
    of the attribute, the value, and the text from the closing quote
    on. So the value read back from the opening quote of data-sitekey
    (or of lang) up to the next double quote is the configured value
    exactly when that value holds no double quote. *)
Theorem getTemplate_interpolates_verbatim (p : TemplateParams) (e : option bool) :
  getTemplate p e = before_siteKey p e +:+ siteKey p +:+ after_siteKey p
  ∧ getTemplate p e = before_lang +:+ interpolate id (lang p) +:+ after_lang p e
  ∧ (attribute_value (siteKey p +:+ after_siteKey p) = siteKey p
     ↔ has_quote (siteKey p) = false)
  ∧ (attribute_value (interpolate id (lang p) +:+ after_lang p e) = interpolate id (lang p)
     ↔ has_quote (interpolate id (lang p)) = false).
Proof.
  repeat split.
  - unfold getTemplate, before_siteKey. now rewrite !append_assoc.
  - destruct (after_siteKey_closes p) as [rest ->]. now apply attribute_value_iff.
  - destruct (after_siteKey_closes p) as [rest ->]. now apply attribute_value_iff.
  - destruct (after_lang_closes p e) as [rest ->]. now apply attribute_value_iff.
  - destruct (after_lang_closes p e) as [rest ->]. now apply attribute_value_iff.
Qed.

(** C6 (counterexample): a site key with a double quote in it ends
    the data-sitekey attribute early, and the rest of the key is read
    as markup: here as a data-callback attribute that comes before the
    one of the template. *)
Lemma getTemplate_siteKey_breaks_out :
  attribute "data-sitekey" (getTemplate Scenario.breaking_params None) = Some "KEY"
  ∧ attribute "data-sitekey" (getTemplate Scenario.breaking_params None)
    ≠ Some (siteKey Scenario.breaking_params)
  ∧ attribute "data-callback" (getTemplate Scenario.breaking_params None) = Some "evil"
  ∧ attribute "data-callback" (getTemplate Scenario.plain_params None) = Some "onSubmit".
Proof. vm_compute. repeat split; congruence. Qed.

(** C9: getTemplate is a function of its arguments alone, and of no
    more than the fields it reads: two calls whose arguments agree on
    the site key, the size, the language and on whether hideBadge,
    debug and enterprise are set return the same document, character
    for character. Equal arguments are the special case. *)
Theorem getTemplate_deterministic (p1 p2 : TemplateParams) (e1 e2 : option bool) :
  siteKey p1 = siteKey p2 →
  size p1 = size p2 →
  lang p1 = lang p2 →
  flag_set (hideBadge p1) = flag_set (hideBadge p2) →
  flag_set (debug p1) = flag_set (debug p2) →
  flag_set e1 = flag_set e2 →
  getTemplate p1 e1 = getTemplate p2 e2.
Proof.
  intros Hkey Hsize Hlang Hbadge Hdebug Hent.
  unfold getTemplate, badge_rule, endpoint.
  now rewrite Hkey, Hsize, Hlang, Hbadge, Hdebug, Hent.
Qed.

End TemplateProperties.

(** C9 (witness): two configurations that differ in the theme, the
    action and in false against undefined give one document. *)
Lemma getTemplate_deterministic_witness :
  Template.getTemplate Scenario.plain_params None
  = Template.getTemplate Scenario.themed_params (Some false).
Proof.
  apply (getTemplate_deterministic Scenario.plain_params Scenario.themed_params
           None (Some false)); reflexivity.
Defined.

(** * Properties of the bridge controller *)
Section ControllerProperties.
Import Json Controller.
Local Open Scope list_scope.

Variable JSON_parse : string → option json.
Variable p : props.

(** ** The handlers, one equation each *)

Lemma bind_normal {A B : Type} (m : M A) (f : A → M B) (s s1 : state) (a : A) (w1 : list effect) :
  m s = (Normal a, s1, w1) →
  bind m f s = match f a s1 with (c, s2, w2) => (c, s2, w1 ++ w2) end.
Proof. intros H. unfold bind. now rewrite H. Qed.

Lemma handleClose_eq (s : state) :
  handleClose p s = (Normal tt, closed s, close_effects p s).
Proof.
  unfold handleClose, close_effects, closed, injectJavaScript, bind, update, read, when, emit, ret.
  destruct s as [attached ? ? ? ? ? ? ?]. cbn. destruct attached, (onClose p); reflexivity.
Qed.

Lemma closed_hidden (s : state) : hidden (closed s).
Proof. split; reflexivity. Qed.

(** A terminal key of an object: nothing when its value is falsy or
    absent, else a close and then the callback. *)
Lemma if_key_terminal (ms : list (string * json)) (k : key) (cb : json → M unit) (s : state) :
  (∀ v s', cb v s' = (Normal tt, s', callback_effects p k v)) →
  if_key (JObject ms) k (λ v, bind (handleClose p) (λ _, cb v)) s
  = (Normal tt, if present k ms then closed s else s, outcome_effects p s k ms).
Proof.
  intros Hcb. unfold if_key, present, outcome_effects, truthy_property.
  unfold bind at 1. simpl.
  destruct (member (key_name k) ms) as [v|]; [|reflexivity].
  destruct (truthy v); [|reflexivity].
  rewrite (bind_normal _ _ _ _ _ _ (handleClose_eq s)), Hcb. reflexivity.
Qed.

Lemma if_key_onReady (ms : list (string * json)) (s : state) :
  if_key (JObject ms) onReady (λ _, update (set_captchaLoaded_current true)) s
  = (Normal tt, if present onReady ms then set_captchaLoaded_current true s else s, []).
Proof.
  unfold if_key, present, truthy_property. unfold bind. simpl.
  destruct (member _ ms) as [v|]; [|reflexivity].
  destruct (truthy v); reflexivity.
Qed.

Lemma clear_timeout_ref_eq (s : state) :
  clear_timeout_ref s = (Normal tt, timer_cleared s, []).
Proof.
  unfold clear_timeout_ref, timer_cleared, bind, read, clearTimeout, update, ret.
  destruct (timeout_current s); reflexivity.
Qed.

Lemma when_emit (cond : bool) (e : effect) (s : state) :
  when cond (emit e) s = (Normal tt, s, if cond then [e] else []).
Proof. destruct cond; reflexivity. Qed.

(** An unparseable message: the SyntaxError is caught and logged. *)
Lemma handleMessage_malformed (data : string) (s : state) :
  JSON_parse data = None →
  handleMessage JSON_parse p data s = (Normal tt, timer_cleared s, [ConsoleWarn SyntaxError]).
Proof.
  intros H. unfold handleMessage.
  rewrite (bind_normal _ _ _ _ _ _ (clear_timeout_ref_eq s)).
  unfold try_catch, parse, bind at 1. rewrite H. reflexivity.
Qed.

(** The payload null: the TypeError of the first read is caught. *)
Lemma handleMessage_null (data : string) (s : state) :
  JSON_parse data = Some JNull →
  handleMessage JSON_parse p data s = (Normal tt, timer_cleared s, [ConsoleWarn TypeError]).
Proof.
  intros H. unfold handleMessage.
  rewrite (bind_normal _ _ _ _ _ _ (clear_timeout_ref_eq s)).
  unfold try_catch, parse, bind at 1. rewrite H. reflexivity.
Qed.

(** An object: the three terminal keys in the order of the source,
    then onReady. *)
Lemma handleMessage_object (data : string) (ms : list (string * json)) (s : state) :
  JSON_parse data = Some (JObject ms) →
  handleMessage JSON_parse p data s
  = (Normal tt, after_message s ms,
     outcome_effects p s verify ms ++ outcome_effects p s expired ms
     ++ outcome_effects p s error ms).
Proof.
  intros H. unfold handleMessage.
  rewrite (bind_normal _ _ _ _ _ _ (clear_timeout_ref_eq s)).
  unfold try_catch, parse. unfold bind at 1. rewrite H. unfold ret at 1.
  rewrite (bind_normal _ _ _ _ _ _
    (if_key_terminal ms verify (λ v, when (onVerify p) (emit (CallOnVerify v))) _
       (λ v s', when_emit _ _ s'))).
  rewrite (bind_normal _ _ _ _ _ _
    (if_key_terminal ms expired (λ _, when (onExpire p) (emit CallOnExpire)) _
       (λ v s', when_emit _ _ s'))).
  rewrite (bind_normal _ _ _ _ _ _
    (if_key_terminal ms error (λ v, when (onError p) (emit (CallOnError v))) _
       (λ v s', when_emit _ _ s'))).
  rewrite if_key_onReady.
  unfold after_message, timer_cleared.
  destruct (timeout_current s), (present verify ms), (present expired ms),
    (present error ms), (present onReady ms); simpl;
    rewrite ?app_nil_r; reflexivity.
Qed.

(** Any other payload (a boolean, a number, a string, an array) has
    none of the four properties. *)
Lemma handleMessage_other (data : string) (v : json) (s : state) :
  JSON_parse data = Some v →
  v ≠ JNull →
  (∀ ms, v ≠ JObject ms) →
  handleMessage JSON_parse p data s = (Normal tt, timer_cleared s, []).
Proof.
  intros H Hnull Hobj. unfold handleMessage.
  rewrite (bind_normal _ _ _ _ _ _ (clear_timeout_ref_eq s)).
  unfold try_catch, parse. unfold bind at 1. rewrite H.
  destruct v; try reflexivity; [now destruct Hnull | now destruct (Hobj members)].
Qed.

Lemma handleOpen_eq (s : state) :
  handleOpen p s = (Normal tt, opened p s, open_effects s).
Proof.
  unfold handleOpen, opened, open_effects, injectJavaScript, setTimeout, bind, update,
    read, when, emit, ret.
  destruct s as [attached ? ? ? ? ? ? ?]. cbn. destruct attached; reflexivity.
Qed.

Lemma timeout_callback_eq (s : state) :
  timeout_callback p s = (Normal tt, setLoading false (closed s), timeout_effects p s).
Proof.
  unfold timeout_callback, timeout_effects, closed, injectJavaScript, bind, update,
    read, when, emit, ret.
  destruct s as [attached ? ? ? ? ? ? ?]. cbn. destruct attached, (onError p); reflexivity.
Qed.

(** A pending timer that comes due is spent and runs the callback. *)
Lemma fire_pending (h : nat) (d : Z) (s : state) :
  timers s !! h = Some d →
  fire p h s = (Normal tt, timed_out h s, timeout_effects p s).
Proof.
  intros H. unfold fire, clearTimeout. unfold bind at 1, read. rewrite H.
  unfold bind at 1, update.
  rewrite timeout_callback_eq. reflexivity.
Qed.

(** A timer that was cleared, or that fired already, never runs. *)
Lemma fire_spent (h : nat) (s : state) :
  timers s !! h = None →
  fire p h s = (Normal tt, s, []).
Proof. intros H. unfold fire, bind, read. now rewrite H. Qed.

(** Every handler returns: no exception leaves the event loop. *)
Lemma dispatch_completes (ev : event) (s : state) :
  ∃ s' w, dispatch JSON_parse p ev s = (Normal tt, s', w).
Proof.
  destruct ev as [| |data|h|]; simpl.
  - rewrite handleOpen_eq. eauto.
  - rewrite handleClose_eq. eauto.
  - destruct (JSON_parse data) as [v|] eqn:H.
    + destruct v;
        try (erewrite handleMessage_other by (try eassumption; congruence); eauto; fail).
      * erewrite handleMessage_null by eassumption. eauto.
      * erewrite handleMessage_object by eassumption. eauto.
    + rewrite handleMessage_malformed by assumption. eauto.
  - destruct (timers s !! h) as [d|] eqn:H.
    + erewrite fire_pending by eassumption. eauto.
    + rewrite fire_spent by assumption. eauto.
  - unfold stopLoading, update. eauto.
Qed.

(** ** Counting calls *)

Lemma calls_app (test : effect → bool) (w1 w2 : list effect) :
  calls test (w1 ++ w2) = calls test w1 + calls test w2.
Proof. unfold calls. now rewrite List.filter_app, length_app. Qed.

Lemma calls_close_effects_onClose (s : state) :
  calls is_onClose (close_effects p s) = if onClose p then 1 else 0.
Proof. unfold close_effects. destruct (webView_current s), (onClose p); reflexivity. Qed.

Lemma calls_callback_effects_onClose (k : key) (v : json) :
  calls is_onClose (callback_effects p k v) = 0.
Proof.
  destruct k; simpl;
    [destruct (onVerify p) | destruct (onExpire p) | destruct (onError p) | ]; reflexivity.
Qed.

Lemma calls_outcome_effects_onClose (s : state) (k : key) (ms : list (string * json)) :
  onClose p = true →
  calls is_onClose (outcome_effects p s k ms) = Nat.b2n (present k ms).
Proof.
  intros H. unfold outcome_effects, present, truthy_property.
  destruct (member (key_name k) ms) as [v|]; [|reflexivity].
  destruct (truthy v); [|reflexivity].
  now rewrite calls_app, calls_close_effects_onClose, calls_callback_effects_onClose, H.
Qed.

(** ** The timers across a message *)

Lemma timer_cleared_idempotent (s : state) : timer_cleared (timer_cleared s) = timer_cleared s.
Proof.
  unfold timer_cleared. destruct (timeout_current s) as [h|] eqn:E; cbn; rewrite E; [|reflexivity].
  unfold set_timers. cbn. now rewrite delete_delete_eq.
Qed.

(** Handling starts by clearing the timer of the ref, so a state in
    which it is cleared already is handled alike. *)
Lemma handleMessage_after_clear (data : string) (s : state) :
  handleMessage JSON_parse p data (timer_cleared s) = handleMessage JSON_parse p data s.
Proof.
  unfold handleMessage.
  rewrite (bind_normal _ _ _ _ _ _ (clear_timeout_ref_eq s)).
  rewrite (bind_normal _ _ _ _ _ _ (clear_timeout_ref_eq (timer_cleared s))).
  now rewrite timer_cleared_idempotent.
Qed.

Lemma timers_after_message (s : state) (ms : list (string * json)) :
  timers (after_message s ms) = timers (timer_cleared s).
Proof.
  unfold after_message.
  destruct (present verify ms || present expired ms || present error ms),
    (present onReady ms); reflexivity.
Qed.

Lemma step_message_timers (data : string) (s : state) :
  timers (fst (step JSON_parse p (Message data) s)) = timers (timer_cleared s).
Proof.
  unfold step. simpl. destruct (JSON_parse data) as [v|] eqn:H.
  - destruct v;
      try (erewrite handleMessage_other by (try eassumption; congruence); reflexivity).
    + erewrite handleMessage_null by eassumption. reflexivity.
    + erewrite handleMessage_object by eassumption. apply timers_after_message.
  - rewrite handleMessage_malformed by assumption. reflexivity.
Qed.

Lemma outcome_effects_ext (s s' : state) (k : key) (ms : list (string * json)) :
  webView_current s = webView_current s' →
  outcome_effects p s k ms = outcome_effects p s' k ms.
Proof. intros H. unfold outcome_effects, close_effects. now rewrite H. Qed.

Lemma outcome_effects_absent (s : state) (k : key) (ms : list (string * json)) :
  present k ms = false → outcome_effects p s k ms = [].
Proof.
  unfold present, outcome_effects, truthy_property.
  destruct (member (key_name k) ms) as [v|]; [|reflexivity].
  now intros ->.
Qed.

(** The effects of a message depend on the state through the WebView
    ref alone: nothing records what was delivered before. *)
Lemma step_message_effects_ext (data : string) (s s' : state) :
  webView_current s = webView_current s' →
  snd (step JSON_parse p (Message data) s) = snd (step JSON_parse p (Message data) s').
Proof.
  intros Hw. unfold step. simpl. destruct (JSON_parse data) as [v|] eqn:H.
  - destruct v;
      try (erewrite !handleMessage_other by (try eassumption; congruence); reflexivity).
    + erewrite !handleMessage_null by eassumption. reflexivity.
    + erewrite !handleMessage_object by eassumption. simpl.
      now rewrite !(outcome_effects_ext s s') by assumption.
  - rewrite !handleMessage_malformed by assumption. reflexivity.
Qed.

(** With no timer pending, timers coming due do nothing. *)
Lemma run_timers_none_pending (hs : list nat) (s : state) :
  timers s = ∅ → run JSON_parse p (TimerFires <$> hs) s = (s, []).
Proof.
  intros H. induction hs as [|h hs IH]; [reflexivity|].
  cbn [fmap list_fmap run]. unfold step. simpl.
  rewrite fire_spent by (rewrite H; apply lookup_empty).
  fold (fmap (M := list) TimerFires hs). now rewrite IH.
Qed.

(** ** The claims *)

(** C8: a message that JSON.parse rejects is logged and dropped. The
    handler returns normally, its only effect is the console warning
    (no host callback), it leaves the state as it was but for the
    cleared timer of the ref, and whatever message comes next is
    handled exactly as it would have been without the malformed one:
    same completion, same state, same effects. *)
Theorem malformed_message_discarded (data : string) (s : state) :
  JSON_parse data = None →
  handleMessage JSON_parse p data s = (Normal tt, timer_cleared s, [ConsoleWarn SyntaxError])
  ∧ calls is_host_callback [ConsoleWarn SyntaxError] = 0
  ∧ (∀ next : string,
       handleMessage JSON_parse p next (timer_cleared s) = handleMessage JSON_parse p next s).
Proof.
  intros H. split; [now apply handleMessage_malformed|].
  split; [reflexivity|]. intros next. apply handleMessage_after_clear.
Qed.

(** C10: a payload that carries several of the recognised keys is
    neither rejected nor cut down to one of them. Each of verify,
    expired and error whose value is truthy is dispatched on its own,
    in this order: a close (the reset and onClose) followed by the
    host callback of the key; a truthy onReady then sets the loaded
    flag. So onClose is called once for every truthy terminal key. *)
Theorem message_dispatches_every_key (data : string) (ms : list (string * json)) (s : state) :
  JSON_parse data = Some (JObject ms) →
  let w := outcome_effects p s verify ms ++ outcome_effects p s expired ms
           ++ outcome_effects p s error ms in
  handleMessage JSON_parse p data s = (Normal tt, after_message s ms, w)
  ∧ captchaLoaded_current (after_message s ms)
    = (captchaLoaded_current s || present onReady ms)
  ∧ (onClose p = true →
     calls is_onClose w
     = Nat.b2n (present verify ms) + Nat.b2n (present expired ms) + Nat.b2n (present error ms)).
Proof.
  intros H w. split; [now apply handleMessage_object|]. split.
  - unfold after_message, timer_cleared.
    destruct (timeout_current s), (present verify ms), (present expired ms),
      (present error ms), (present onReady ms);
      cbn; rewrite ?orb_true_r, ?orb_false_r; reflexivity.
  - intros Hc. unfold w. rewrite !calls_app, !calls_outcome_effects_onClose by assumption.
    now rewrite Nat.add_assoc.
Qed.

(** C2 (amended): after open(), a message whose payload is the object
    with the single key verify and a truthy token clears the timeout
    that open() armed, hides the overlay, resets the widget, calls
    onClose once when the host supplied it, and then calls onVerify
    with the token exactly once; onExpire and onError are not called. *)
Theorem verify_message_closes_then_verifies (data : string) (token : json) (s0 : state) :
  JSON_parse data = Some (JObject [("verify", token)]) →
  truthy token = true →
  onVerify p = true →
  let s1 := fst (step JSON_parse p Open s0) in
  let s2 := fst (step JSON_parse p (Message data) s1) in
  let w := snd (step JSON_parse p (Message data) s1) in
  visible s1
  ∧ timers s1 !! next_handle s0 = Some (timeout_delay p)
  ∧ w = close_effects p s1 ++ [CallOnVerify token]
  ∧ calls is_onVerify w = 1
  ∧ calls is_onClose w = (if onClose p then 1 else 0)
  ∧ calls is_onExpire w = 0
  ∧ calls is_onError w = 0
  ∧ hidden s2
  ∧ timers s2 !! next_handle s0 = None.
Proof.
  intros Hparse Htruthy Hcb s1 s2 w.
  assert (Hs1 : s1 = opened p s0).
  { unfold s1, step. simpl. now rewrite handleOpen_eq. }
  assert (Hm : step JSON_parse p (Message data) s1
               = (closed (timer_cleared s1), close_effects p s1 ++ [CallOnVerify token])).
  { unfold step. simpl. rewrite (handleMessage_object _ _ _ Hparse).
    unfold after_message, outcome_effects, present, truthy_property. simpl.
    rewrite Htruthy, Hcb. simpl. now rewrite app_nil_r. }
  unfold s2, w. rewrite Hm. simpl. rewrite Hs1.
  split; [split; reflexivity|].
  split; [simpl; apply lookup_insert_eq|].
  split; [reflexivity|].
  unfold close_effects.
  repeat split; try (destruct (webView_current (opened p s0)), (onClose p); reflexivity).
  unfold timer_cleared. simpl. apply lookup_delete_eq.
Qed.

(** C4 (amended): a message whose payload is an object with a truthy
    onReady and no truthy verify, expired or error sets the loaded
    flag and has no effect: the overlay and the loading flag stay,
    no callback is called, no script is injected. The handler clears
    the timer held by the ref, as it does for every message, and sets
    none. *)
Theorem ready_message_sets_loaded (data : string) (ms : list (string * json)) (s : state) :
  JSON_parse data = Some (JObject ms) →
  present onReady ms = true →
  present verify ms = false →
  present expired ms = false →
  present error ms = false →
  let s' := fst (step JSON_parse p (Message data) s) in
  step JSON_parse p (Message data) s = (set_captchaLoaded_current true (timer_cleared s), [])
  ∧ captchaLoaded_current s' = true
  ∧ containerOpacity s' = containerOpacity s
  ∧ containerZIndex s' = containerZIndex s
  ∧ loading s' = loading s
  ∧ timeout_current s' = timeout_current s
  ∧ next_handle s' = next_handle s
  ∧ timers s' = match timeout_current s with
                | Some h => delete h (timers s)
                | None => timers s
                end.
Proof.
  intros Hparse Hready Hverify Hexpired Herror s'.
  assert (Hstep : step JSON_parse p (Message data) s
                  = (set_captchaLoaded_current true (timer_cleared s), [])).
  { unfold step. simpl. rewrite (handleMessage_object _ _ _ Hparse).
    rewrite !outcome_effects_absent by assumption.
    unfold after_message. now rewrite Hready, Hverify, Hexpired, Herror. }
  unfold s'. rewrite Hstep. split; [reflexivity|].
  unfold timer_cleared. destruct (timeout_current s) eqn:E; cbn; rewrite ?E; repeat split.
Qed.

(** C5 (amended): a pending timer that comes due calls onError with
    the reason timeout exactly once (when the host supplied onError),
    then hides the overlay, resets the widget and stops the loading
    indicator; the timer is spent. It calls neither onClose nor any
    other callback. *)
Theorem timeout_calls_onError_and_closes (h : nat) (d : Z) (s : state) :
  timers s !! h = Some d →
  let s' := fst (step JSON_parse p (TimerFires h) s) in
  let w := snd (step JSON_parse p (TimerFires h) s) in
  w = (if onError p then [CallOnError (JString "timeout")] else [])
      ++ (if webView_current s then [InjectJavaScript grecaptcha_reset] else [])
  ∧ calls is_timeout_error w = (if onError p then 1 else 0)
  ∧ calls is_onError w = (if onError p then 1 else 0)
  ∧ calls is_onClose w = 0
  ∧ calls is_onVerify w = 0
  ∧ calls is_onExpire w = 0
  ∧ hidden s'
  ∧ loading s' = false
  ∧ timers s' = delete h (timers s).
Proof.
  intros H s' w. unfold s', w, step. simpl. rewrite (fire_pending _ _ _ H). simpl.
  unfold timeout_effects.
  repeat split; destruct (onError p), (webView_current s); reflexivity.
Qed.

(** C7 (amended): every message ingested after open() clears, within
    its own handling, the timeout that open() armed: that timer is
    pending no more and its coming due does nothing, so it never calls
    onError after the message; when no older timer was pending, no
    timer at all fires afterwards. The outcomes themselves are not
    exclusive: the effects of a message depend on the state through
    the WebView ref alone, so a later message fires its callbacks
    whatever was delivered before it. *)
Theorem message_cancels_armed_timeout (data : string) (s0 : state) :
  let h := next_handle s0 in
  let s1 := fst (step JSON_parse p Open s0) in
  let s2 := fst (step JSON_parse p (Message data) s1) in
  timeout_current s1 = Some h
  ∧ timers s1 !! h = Some (timeout_delay p)
  ∧ timers s2 !! h = None
  ∧ step JSON_parse p (TimerFires h) s2 = (s2, [])
  ∧ (timers s0 = ∅ → ∀ hs, run JSON_parse p (TimerFires <$> hs) s2 = (s2, []))
  ∧ (∀ next s s', webView_current s = webView_current s' →
       snd (step JSON_parse p (Message next) s) = snd (step JSON_parse p (Message next) s')).
Proof.
  intros h s1 s2.
  assert (Hs1 : s1 = opened p s0).
  { unfold s1, step. simpl. now rewrite handleOpen_eq. }
  assert (Ht : timers s2 = delete h (timers s0)).
  { unfold s2. rewrite step_message_timers, Hs1. unfold timer_cleared. simpl.
    apply delete_insert_eq. }
  split; [now rewrite Hs1|].
  split; [rewrite Hs1; simpl; apply lookup_insert_eq|].
  split; [rewrite Ht; apply lookup_delete_eq|].
  split; [unfold step; simpl; rewrite fire_spent; [reflexivity|rewrite Ht; apply lookup_delete_eq]|].
  split.
  - intros H0 hs. apply run_timers_none_pending. rewrite Ht, H0. apply delete_empty.
  - intros next s s'. apply step_message_effects_ext.
Qed.

End ControllerProperties.

(** * The claims on the scenarios *)
Section Scenarios.
Import Json Wire Controller Scenario.
Local Open Scope list_scope.

(** C8 (witness): the text that is not JSON, ingested after open(). *)
Lemma malformed_message_discarded_witness :
  parse_message malformed_message = None
  ∧ handleMessage parse_message host malformed_message (fst (play [Open]))
    = (Normal tt, timer_cleared (fst (play [Open])), [ConsoleWarn SyntaxError])
  ∧ handleMessage parse_message host verify_message (timer_cleared (fst (play [Open])))
    = handleMessage parse_message host verify_message (fst (play [Open])).
Proof.
  pose proof (malformed_message_discarded parse_message host malformed_message
                (fst (play [Open])) eq_refl) as (Hdrop & _ & Hnext).
  split; [reflexivity|]. split; [exact Hdrop | exact (Hnext verify_message)].
Defined.

(** C10 (witness): one message with verify and error, after open(). *)
Lemma message_dispatches_every_key_witness :
  parse_message verify_and_error_message
  = Some (JObject [("verify", JString "tok-123"); ("error", JString "network")])
  ∧ snd (handleMessage parse_message host verify_and_error_message (fst (play [Open])))
    = [InjectJavaScript grecaptcha_reset; CallOnClose; CallOnVerify (JString "tok-123");
       InjectJavaScript grecaptcha_reset; CallOnClose; CallOnError (JString "network")].
Proof.
  pose proof (message_dispatches_every_key parse_message host verify_and_error_message _
                (fst (play [Open])) eq_refl) as (Hrun & _).
  split; [reflexivity|]. rewrite Hrun. reflexivity.
Defined.

(** C2 (witness): the token tok-123, after open() on the mounted
    component. *)
Lemma verify_message_closes_then_verifies_witness :
  parse_message verify_message = Some (JObject [("verify", JString "tok-123")])
  ∧ truthy (JString "tok-123") = true
  ∧ onVerify host = true
  ∧ snd (step parse_message host (Message verify_message)
           (fst (step parse_message host Open mounted)))
    = [InjectJavaScript grecaptcha_reset; CallOnClose; CallOnVerify (JString "tok-123")].
Proof.
  pose proof (verify_message_closes_then_verifies parse_message host verify_message
                (JString "tok-123") mounted eq_refl eq_refl eq_refl) as (_ & _ & Hw & _).
  split; [reflexivity|]. split; [reflexivity|]. split; [reflexivity | exact Hw].
Defined.

(** C2 (counterexample): the verify message of the scenario makes the
    controller call onClose, once, before onVerify; and a verify
    message with an empty token calls nothing. *)
Lemma verify_message_calls_onClose :
  snd (play [Open; Message verify_message])
  = [InjectJavaScript grecaptcha_reset; InjectJavaScript grecaptcha_execute;
     InjectJavaScript grecaptcha_reset; CallOnClose; CallOnVerify (JString "tok-123")]
  ∧ calls is_onClose (snd (play [Open; Message verify_message])) ≠ 0
  ∧ calls is_onVerify (snd (play [Open; Message empty_token_message])) = 0.
Proof. vm_compute. repeat split. discriminate. Qed.

(** C4 (witness): the onReady message, after open(). *)
Lemma ready_message_sets_loaded_witness :
  parse_message ready_message = Some (JObject [("onReady", JBool true)])
  ∧ step parse_message host (Message ready_message) (fst (play [Open]))
    = (set_captchaLoaded_current true (timer_cleared (fst (play [Open]))), []).
Proof.
  pose proof (ready_message_sets_loaded parse_message host ready_message _
                (fst (play [Open])) eq_refl eq_refl eq_refl eq_refl eq_refl) as (Hstep & _).
  split; [reflexivity | exact Hstep].
Defined.

(** C4 (counterexample): the timeout that open() armed is pending
    before the onReady message and cleared after it, so it never
    fires; and a payload that has the key onReady with the value
    false does not set the loaded flag. *)
Lemma ready_message_clears_timeout :
  timers (fst (play [Open])) !! 1 = Some 30000%Z
  ∧ timers (fst (play [Open; Message ready_message])) !! 1 = None
  ∧ timers (fst (play [Open; Message ready_message])) ≠ timers (fst (play [Open]))
  ∧ snd (play [Open; Message ready_message; TimerFires 1]) = snd (play [Open])
  ∧ captchaLoaded_current (fst (play [Message unready_message])) = false.
Proof.
  assert (H1 : timers (fst (play [Open])) !! 1 = Some 30000%Z) by (vm_compute; reflexivity).
  assert (H2 : timers (fst (play [Open; Message ready_message])) !! 1 = None)
    by (vm_compute; reflexivity).
  split; [exact H1|]. split; [exact H2|].
  split; [intros Heq; rewrite Heq, H1 in H2; discriminate|].
  split; vm_compute; reflexivity.
Qed.

(** C5 (witness): the timer of open() coming due. *)
Lemma timeout_calls_onError_and_closes_witness :
  timers (fst (play [Open])) !! 1 = Some 30000%Z
  ∧ snd (step parse_message host (TimerFires 1) (fst (play [Open])))
    = [CallOnError (JString "timeout"); InjectJavaScript grecaptcha_reset]
  ∧ loading (fst (step parse_message host (TimerFires 1) (fst (play [Open])))) = false.
Proof.
  assert (H : timers (fst (play [Open])) !! 1 = Some 30000%Z) by (vm_compute; reflexivity).
  pose proof (timeout_calls_onError_and_closes parse_message host 1 _ _ H)
    as (Hw & _ & _ & _ & _ & _ & _ & Hl & _).
  split; [exact H|]. split; [exact Hw | exact Hl].
Defined.

(** C5 (counterexample): in the same state, the timer coming due and
    an ingested error message with the reason timeout do not have the
    same effects: the message calls onClose, and calls onError last;
    the timer calls onError first and never onClose. *)
Lemma timeout_differs_from_error_message :
  snd (step parse_message host (TimerFires 1) (fst (play [Open])))
  = [CallOnError (JString "timeout"); InjectJavaScript grecaptcha_reset]
  ∧ snd (step parse_message host (Message timeout_message) (fst (play [Open])))
    = [InjectJavaScript grecaptcha_reset; CallOnClose; CallOnError (JString "timeout")]
  ∧ snd (step parse_message host (TimerFires 1) (fst (play [Open])))
    ≠ snd (step parse_message host (Message timeout_message) (fst (play [Open]))).
Proof. vm_compute. repeat split. discriminate. Qed.

(** C7 (counterexample): in one open() cycle onError is called after
    onVerify, by a second message or by a second key of the same
    message; and two verify messages call onVerify twice. *)
Lemma error_follows_verify :
  snd (play [Open; Message verify_message; Message error_message])
  = [InjectJavaScript grecaptcha_reset; InjectJavaScript grecaptcha_execute;
     InjectJavaScript grecaptcha_reset; CallOnClose; CallOnVerify (JString "tok-123");
     InjectJavaScript grecaptcha_reset; CallOnClose; CallOnError (JString "network")]
  ∧ snd (play [Open; Message verify_and_error_message])
    = [InjectJavaScript grecaptcha_reset; InjectJavaScript grecaptcha_execute;
       InjectJavaScript grecaptcha_reset; CallOnClose; CallOnVerify (JString "tok-123");
       InjectJavaScript grecaptcha_reset; CallOnClose; CallOnError (JString "network")]
  ∧ calls is_onVerify (snd (play [Open; Message verify_message; Message verify_message])) = 2.
Proof. vm_compute. repeat split. Qed.

(** C1 (the code at the failing input): the second open() sets a new
    timer and leaves the first one pending, out of reach of the ref.
    Both come due, and the first one still fires after a verify
    message answered the second open(). *)
Lemma second_open_keeps_first_timeout :
  timers (fst (play [Open; Open])) !! 1 = Some 30000%Z
  ∧ timers (fst (play [Open; Open])) !! 2 = Some 30000%Z
  ∧ timeout_current (fst (play [Open; Open])) = Some 2
  ∧ calls is_timeout_error (snd (play [Open; Open; TimerFires 1; TimerFires 2])) = 2
  ∧ snd (play [Open; Open; Message verify_message; TimerFires 1])
    = [InjectJavaScript grecaptcha_reset; InjectJavaScript grecaptcha_execute;
       InjectJavaScript grecaptcha_reset; InjectJavaScript grecaptcha_execute;
       InjectJavaScript grecaptcha_reset; CallOnClose; CallOnVerify (JString "tok-123");
       CallOnError (JString "timeout"); InjectJavaScript grecaptcha_reset].
Proof. vm_compute. repeat split. Qed.

(** C3 (the code at the failing input): close() hides the overlay,
    resets the widget and calls onClose, and leaves the timer of
    open() pending; when it comes due, onError is called with the
    reason timeout for the cycle that close() had ended. *)
Lemma close_keeps_timeout :
  snd (play [Open; Close])
  = [InjectJavaScript grecaptcha_reset; InjectJavaScript grecaptcha_execute;
     InjectJavaScript grecaptcha_reset; CallOnClose]
  ∧ containerOpacity (fst (play [Open; Close])) = 0%Z
  ∧ containerZIndex (fst (play [Open; Close])) = (-1000)%Z
  ∧ timers (fst (play [Open; Close])) !! 1 = Some 30000%Z
  ∧ snd (play [Open; Close; TimerFires 1])
    = [InjectJavaScript grecaptcha_reset; InjectJavaScript grecaptcha_execute;
       InjectJavaScript grecaptcha_reset; CallOnClose;
       CallOnError (JString "timeout"); InjectJavaScript grecaptcha_reset].
Proof. vm_compute. repeat split. Qed.

End Scenarios.

(** * More properties of the controller *)
Section ControllerInvariants.
Import Json Controller Component.
Local Open Scope list_scope.

Variable JSON_parse : string → option json.
Variable p : props.

(** ** What a step leaves alone *)

(** A message, by what JSON.parse makes of it. *)
Lemma step_message_eq (data : string) (s : state) :
  step JSON_parse p (Message data) s
  = match JSON_parse data with
    | Some (JObject ms) =>
        (after_message s ms,
         outcome_effects p s verify ms ++ outcome_effects p s expired ms
         ++ outcome_effects p s error ms)
    | Some JNull => (timer_cleared s, [ConsoleWarn TypeError])
    | Some _ => (timer_cleared s, [])
    | None => (timer_cleared s, [ConsoleWarn SyntaxError])
    end.
Proof.
  unfold step. simpl. destruct (JSON_parse data) as [v|] eqn:H.
  - destruct v;
      try (erewrite handleMessage_other by (try eassumption; congruence); reflexivity).
    + now erewrite handleMessage_null by eassumption.
    + now erewrite handleMessage_object by eassumption.
  - now rewrite handleMessage_malformed by assumption.
Qed.

Lemma after_message_fields (s : state) (ms : list (string * json)) :
  webView_current (after_message s ms) = webView_current s
  ∧ loading (after_message s ms) = loading s
  ∧ next_handle (after_message s ms) = next_handle s
  ∧ timeout_current (after_message s ms) = timeout_current s.
Proof.
  unfold after_message, timer_cleared.
  destruct (timeout_current s) eqn:E,
    (present verify ms || present expired ms || present error ms), (present onReady ms);
    cbn; rewrite ?E; repeat split.
Qed.

Lemma timer_cleared_fields (s : state) :
  webView_current (timer_cleared s) = webView_current s
  ∧ loading (timer_cleared s) = loading s
  ∧ next_handle (timer_cleared s) = next_handle s
  ∧ timeout_current (timer_cleared s) = timeout_current s.
Proof. unfold timer_cleared. destruct (timeout_current s) eqn:E; cbn; rewrite ?E; repeat split. Qed.

Lemma step_open (s : state) : step JSON_parse p Open s = (opened p s, open_effects s).
Proof. unfold step. simpl. now rewrite handleOpen_eq. Qed.

Lemma step_close (s : state) : step JSON_parse p Close s = (closed s, close_effects p s).
Proof. unfold step. simpl. now rewrite handleClose_eq. Qed.

Lemma step_timer (h : nat) (s : state) :
  step JSON_parse p (TimerFires h) s
  = match timers s !! h with
    | Some _ => (timed_out h s, timeout_effects p s)
    | None => (s, [])
    end.
Proof.
  unfold step. simpl. destruct (timers s !! h) as [d|] eqn:H.
  - now rewrite (fire_pending _ _ _ _ H).
  - now rewrite fire_spent.
Qed.

(** No handler sets or unsets the WebView ref. *)
Lemma step_webView_current (ev : event) (s : state) :
  webView_current (fst (step JSON_parse p ev s)) = webView_current s.
Proof.
  destruct ev as [| |data|h|].
  - now rewrite step_open.
  - now rewrite step_close.
  - rewrite step_message_eq.
    destruct (JSON_parse data) as [[]|]; simpl;
      first [apply after_message_fields | apply timer_cleared_fields].
  - rewrite step_timer. now destruct (timers s !! h).
  - reflexivity.
Qed.

Lemma run_cons (ev : event) (evs : list event) (s : state) :
  run JSON_parse p (ev :: evs) s
  = (fst (run JSON_parse p evs (fst (step JSON_parse p ev s))),
     snd (step JSON_parse p ev s) ++ snd (run JSON_parse p evs (fst (step JSON_parse p ev s)))).
Proof.
  simpl. destruct (step JSON_parse p ev s) as [s1 w1]. simpl.
  now destruct (run JSON_parse p evs s1).
Qed.

Lemma run_app (evs1 evs2 : list event) (s : state) :
  run JSON_parse p (evs1 ++ evs2) s
  = (fst (run JSON_parse p evs2 (fst (run JSON_parse p evs1 s))),
     snd (run JSON_parse p evs1 s) ++ snd (run JSON_parse p evs2 (fst (run JSON_parse p evs1 s)))).
Proof.
  revert s. induction evs1 as [|ev evs1 IH]; intros s.
  - simpl. now destruct (run JSON_parse p evs2 s).
  - rewrite <- app_comm_cons, !run_cons, IH. simpl. now rewrite app_assoc.
Qed.

Lemma step_loading (ev : event) (s : state) :
  message_or_close ev = true → loading (fst (step JSON_parse p ev s)) = loading s.
Proof.
  destruct ev as [| |data|h|]; try discriminate; intros _.
  - now rewrite step_close.
  - rewrite step_message_eq.
    destruct (JSON_parse data) as [[]|]; simpl;
      first [apply after_message_fields | apply timer_cleared_fields].
Qed.

Lemma calls_inject_close_effects (s : state) :
  webView_current s = false → calls is_inject (close_effects p s) = 0.
Proof. intros H. unfold close_effects. rewrite H. now destruct (onClose p). Qed.

Lemma calls_inject_callback_effects (k : key) (v : json) :
  calls is_inject (callback_effects p k v) = 0.
Proof.
  destruct k; simpl;
    [destruct (onVerify p) | destruct (onExpire p) | destruct (onError p) | ]; reflexivity.
Qed.

Lemma calls_inject_outcome_effects (s : state) (k : key) (ms : list (string * json)) :
  webView_current s = false → calls is_inject (outcome_effects p s k ms) = 0.
Proof.
  intros H. unfold outcome_effects.
  destruct (member (key_name k) ms) as [v|]; [|reflexivity].
  destruct (truthy v); [|reflexivity].
  now rewrite calls_app, calls_inject_close_effects, calls_inject_callback_effects.
Qed.

Lemma step_no_inject (ev : event) (s : state) :
  webView_current s = false → calls is_inject (snd (step JSON_parse p ev s)) = 0.
Proof.
  intros H. destruct ev as [| |data|h|].
  - rewrite step_open. unfold open_effects. now rewrite H.
  - rewrite step_close. now apply calls_inject_close_effects.
  - rewrite step_message_eq. destruct (JSON_parse data) as [[]|]; simpl; try reflexivity.
    now rewrite !calls_app, !calls_inject_outcome_effects.
  - rewrite step_timer. destruct (timers s !! h); [|reflexivity]. simpl.
    unfold timeout_effects. rewrite H. now destruct (onError p).
  - reflexivity.
Qed.

(** ** Properties beyond the claims *)

(** X1: a payload that is valid JSON but no object is ignored. The
    timer of the ref is cleared and nothing else changes; no host
    callback is called and no script injected. Only the payload null
    leaves a trace, the console warning of the TypeError its first
    property read throws; a number, a string, a boolean or an array
    leaves none. *)
Theorem non_object_payload_ignored (data : string) (v : json) (s : state) :
  JSON_parse data = Some v →
  (∀ ms, v ≠ JObject ms) →
  step JSON_parse p (Message data) s
  = (timer_cleared s, match v with JNull => [ConsoleWarn TypeError] | _ => [] end).
Proof.
  intros H Hobj. rewrite step_message_eq, H.
  destruct v; try reflexivity. now destruct (Hobj members).
Qed.

(** X2: an object none of whose four keys carries a truthy value (the
    empty object, an error whose reason is the empty string, a verify
    whose token is null) has no effect at all, and no warning is
    logged; yet the timer of the ref is cleared by it, so the timeout
    armed by open() will not fire either. *)
Theorem falsy_payload_silences_timeout (data : string) (ms : list (string * json)) (s : state) :
  JSON_parse data = Some (JObject ms) →
  present verify ms = false →
  present expired ms = false →
  present error ms = false →
  present onReady ms = false →
  step JSON_parse p (Message data) s = (timer_cleared s, [])
  ∧ (∀ h, timeout_current s = Some h →
          step JSON_parse p (TimerFires h) (timer_cleared s) = (timer_cleared s, [])).
Proof.
  intros H Hv Hx He Hr. split.
  - rewrite step_message_eq, H.
    rewrite !outcome_effects_absent by assumption.
    unfold after_message. now rewrite Hv, Hx, He, Hr.
  - intros h Hh. rewrite step_timer.
    replace (timers (timer_cleared s) !! h) with (@None Z); [reflexivity|].
    unfold timer_cleared. rewrite Hh. simpl. symmetry. apply lookup_delete_eq.
Qed.

(** X3: the handlers never set or unset the WebView ref, and while it
    is unset no script reaches the WebView, whatever the events:
    open() still arms its timer and close() still calls onClose, but
    neither the reset nor the execute is injected. *)
Theorem no_script_while_detached (evs : list event) (s : state) :
  webView_current s = false →
  webView_current (fst (run JSON_parse p evs s)) = false
  ∧ calls is_inject (snd (run JSON_parse p evs s)) = 0.
Proof.
  revert s. induction evs as [|ev evs IH]; intros s H; [now split|].
  rewrite run_cons. simpl.
  assert (H1 : webView_current (fst (step JSON_parse p ev s)) = false)
    by now rewrite step_webView_current.
  destruct (IH _ H1) as [IHw IHc]. split; [exact IHw|].
  now rewrite calls_app, step_no_inject, IHc.
Qed.

(** X4: messages and close() never touch the loading flag. So once
    open() has raised it, it stays up through any number of messages
    and closes, a successful verify included: renderLoading keeps
    returning the indicator (unless hideLoader is set) and the
    navigation guard keeps from calling stopLoading, until the load
    ends or a timer fires. *)
Theorem loading_stays_after_open (lp : loader_props) (evs : list event) (s : state) :
  forallb message_or_close evs = true →
  let s' := fst (run JSON_parse p (Open :: evs) s) in
  loading s' = true
  ∧ renderLoading lp s'
    = (if Template.flag_set (hideLoader lp) then NoIndicator
       else if loadingComponent lp then HostIndicator else ActivityIndicator)
  ∧ handleNavigationStateChange s' = [].
Proof.
  intros H s'.
  assert (Hl : loading s' = true).
  { unfold s'. rewrite run_cons, step_open. simpl.
    assert (G : ∀ evs s0, forallb message_or_close evs = true →
                loading (fst (run JSON_parse p evs s0)) = loading s0).
    { clear. intros evs. induction evs as [|ev evs IH]; intros s0 H; [reflexivity|].
      simpl in H. apply andb_prop in H as [H1 H2].
      rewrite run_cons. simpl. now rewrite IH, step_loading. }
    now rewrite G. }
  unfold renderLoading, handleNavigationStateChange. rewrite Hl. simpl.
  repeat split.
Qed.

Lemma step_forget_loaded (ev : event) (s1 s2 : state) :
  forget_loaded s1 = forget_loaded s2 →
  snd (step JSON_parse p ev s1) = snd (step JSON_parse p ev s2)
  ∧ forget_loaded (fst (step JSON_parse p ev s1)) = forget_loaded (fst (step JSON_parse p ev s2)).
Proof.
  destruct s1 as [w1 t1 l1 c1 o1 z1 m1 n1], s2 as [w2 t2 l2 c2 o2 z2 m2 n2].
  unfold forget_loaded, set_captchaLoaded_current. cbn.
  intros H. injection H as -> -> -> -> -> -> ->.
  destruct ev as [| |data|h|].
  - rewrite !step_open. split; reflexivity.
  - rewrite !step_close. split; reflexivity.
  - rewrite !step_message_eq.
    destruct t2, (JSON_parse data) as [[| | | | |ms]|];
      unfold after_message, timer_cleared, outcome_effects, close_effects; cbn;
      try (split; reflexivity);
      destruct (present verify ms || present expired ms || present error ms),
        (present onReady ms); split; reflexivity.
  - rewrite !step_timer. cbn. destruct (m2 !! h); split; reflexivity.
  - split; reflexivity.
Qed.

(** X5: the loaded flag is written and never read. Two states that
    differ in it alone go through any sequence of events with the
    same effects and stay equal but for the flag: open() does not
    wait for onReady, and no handler behaves differently before and
    after it. *)
Theorem loaded_flag_is_never_read (evs : list event) (s1 s2 : state) :
  forget_loaded s1 = forget_loaded s2 →
  snd (run JSON_parse p evs s1) = snd (run JSON_parse p evs s2)
  ∧ forget_loaded (fst (run JSON_parse p evs s1)) = forget_loaded (fst (run JSON_parse p evs s2)).
Proof.
  revert s1 s2. induction evs as [|ev evs IH]; intros s1 s2 H; [now split|].
  rewrite !run_cons. simpl.
  destruct (step_forget_loaded ev s1 s2 H) as [Hw Hs].
  destruct (IH _ _ Hs) as [IHw IHs]. split; [now rewrite Hw, IHw | exact IHs].
Qed.

Lemma step_message_next_handle (data : string) (s : state) :
  next_handle (fst (step JSON_parse p (Message data) s)) = next_handle s.
Proof.
  rewrite step_message_eq.
  destruct (JSON_parse data) as [[]|]; simpl;
    first [apply after_message_fields | apply timer_cleared_fields].
Qed.

Lemma timer_cleared_fresh (s : state) : fresh s → fresh (timer_cleared s).
Proof.
  intros H h Hh. unfold timer_cleared in *.
  destruct (timeout_current s) as [h0|]; [|now apply H].
  simpl in *. apply lookup_delete_None. right. now apply H.
Qed.

(** Freshness of the handles is kept by every step. *)
Lemma step_fresh (ev : event) (s : state) :
  fresh s → fresh (fst (step JSON_parse p ev s)).
Proof.
  intros H. destruct ev as [| |data|h|].
  - rewrite step_open. intros h Hh. simpl in *.
    rewrite lookup_insert_ne by lia. apply H. lia.
  - rewrite step_close. exact H.
  - intros h Hh. rewrite step_message_next_handle in Hh.
    rewrite step_message_timers. apply timer_cleared_fresh; [exact H|].
    destruct (timer_cleared_fields s) as (_ & _ & -> & _). exact Hh.
  - rewrite step_timer. destruct (timers s !! h) eqn:E; [|exact H].
    intros h' Hh'. simpl in *. apply lookup_delete_None. right. now apply H.
  - exact H.
Qed.

Lemma run_opens_fresh (k : nat) (s : state) :
  fresh s →
  fresh (fst (run JSON_parse p (replicate k Open) s))
  ∧ size (timers (fst (run JSON_parse p (replicate k Open) s))) = size (timers s) + k.
Proof.
  revert s. induction k as [|k IH]; intros s H; [simpl; split; [exact H | lia]|].
  rewrite replicate_S, run_cons. simpl.
  destruct (IH _ (step_fresh Open s H)) as [IHf IHs]. split; [exact IHf|].
  rewrite IHs, step_open. simpl.
  rewrite map_size_insert_None by (apply H; lia). lia.
Qed.

(** X6: open() never clears a timer, it only sets one. From a state
    whose handles are fresh (as the mounted component is, and as
    every step keeps it), k+1 calls of open() in a row leave k+1 more
    timers pending, and the message that follows clears exactly one
    of them, the last: k timers of earlier calls stay pending. *)
Theorem every_open_arms_a_timer (k : nat) (data : string) (s : state) :
  fresh s →
  let s1 := fst (run JSON_parse p (replicate (S k) Open) s) in
  let s2 := fst (step JSON_parse p (Message data) s1) in
  size (timers s1) = size (timers s) + S k
  ∧ size (timers s2) = size (timers s) + k
  ∧ fresh s2.
Proof.
  intros H s1 s2.
  destruct (run_opens_fresh (S k) s H) as [Hf Hs]. fold s1 in Hf, Hs.
  split; [exact Hs|]. split; [|now apply step_fresh].
  unfold s2. rewrite step_message_timers.
  assert (Hlast : ∃ h, timeout_current s1 = Some h ∧ is_Some (timers s1 !! h)).
  { unfold s1. rewrite replicate_S_end, run_app. simpl. rewrite step_open. simpl.
    eexists. split; [reflexivity|]. rewrite lookup_insert_eq. eauto. }
  destruct Hlast as (h & Hh & Hp). unfold timer_cleared. rewrite Hh. simpl.
  rewrite map_size_delete_Some by exact Hp. lia.
Qed.

(** X17: a message without outcome leaves the overlay up and unguarded.
    When no timer is pending and open() is followed by a message that
    carries no truthy verify, expired or error (an onReady, a
    malformed text, a payload that is no object), the overlay stays
    visible and no timer is pending any more: whatever timers come
    due afterwards, nothing hides it and no callback is called. Only
    a later message, close() or open() changes that. *)
Theorem overlay_left_without_timeout (data : string) (s0 : state) :
  timers s0 = ∅ →
  carries_outcome JSON_parse data = false →
  let s2 := fst (run JSON_parse p [Open; Message data] s0) in
  visible s2
  ∧ timers s2 = ∅
  ∧ (∀ hs, run JSON_parse p (TimerFires <$> hs) s2 = (s2, [])).
Proof.
  intros H0 Hc s2.
  assert (Hs2 : visible s2 ∧ timers s2 = ∅).
  { unfold s2. rewrite run_cons. cbn [fst]. rewrite run_cons. cbn [fst run].
    rewrite step_open. cbn [fst]. rewrite step_message_eq. unfold carries_outcome in Hc.
    assert (Ht : timers (timer_cleared (opened p s0)) = ∅).
    { unfold timer_cleared. simpl. rewrite H0, delete_insert_eq. apply delete_empty. }
    assert (Hv : visible (timer_cleared (opened p s0))) by (split; reflexivity).
    destruct (JSON_parse data) as [[| | | | |ms]|]; simpl; try (split; assumption).
    unfold after_message. rewrite Hc.
    destruct (present onReady ms); split; assumption. }
  destruct Hs2 as [Hv Ht]. split; [exact Hv|]. split; [exact Ht|].
  intros hs. now apply run_timers_none_pending.
Qed.

End ControllerInvariants.

(** * More properties of the bridge document *)
Section DocumentScan.
Import Template Scan.

(** ** Searching a text of which a part is known *)

Lemma find_after_cons (needle : string) (c : ascii) (s : string) :
  find_after needle (String c s)
  = match strip_prefix needle (String c s) with
    | Some rest => Some rest
    | None => find_after needle s
    end.
Proof. reflexivity. Qed.

Lemma strip_prefix_app_some (needle a rest tail : string) :
  strip_prefix needle a = Some rest → strip_prefix needle (a +:+ tail) = Some (rest +:+ tail).
Proof.
  revert a. induction needle as [|x needle IH]; intros a H; simpl in *.
  - now injection H as ->.
  - destruct a as [|y a]; [discriminate|]. simpl.
    destruct (Ascii.eqb x y); [now apply IH | discriminate].
Qed.

Lemma mismatch_strip_prefix (needle a tail : string) :
  mismatch needle a = true → strip_prefix needle (a +:+ tail) = None.
Proof.
  revert a. induction needle as [|x needle IH]; intros a H; [discriminate|].
  destruct a as [|y a]; [discriminate|]. simpl in *.
  destruct (Ascii.eqb x y); [now apply IH | reflexivity].
Qed.

(** A known text in which the needle does not start is skipped. *)
Lemma clear_of_app (needle a tail : string) :
  clear_of needle a = true → find_after needle (a +:+ tail) = find_after needle tail.
Proof.
  induction a as [|c a IH]; intros H; [reflexivity|].
  apply andb_prop in H as [Hm Hc].
  change (String c a +:+ tail) with (String c (a +:+ tail)).
  rewrite find_after_cons.
  change (String c (a +:+ tail)) with (String c a +:+ tail).
  rewrite (mismatch_strip_prefix _ _ _ Hm). now apply IH.
Qed.

(** A known text in which the needle first occurs settles the search. *)
Lemma locate_app (needle a rest tail : string) :
  locate needle a = Some rest → find_after needle (a +:+ tail) = Some (rest +:+ tail).
Proof.
  induction a as [|c a IH]; intros H.
  - destruct needle; [|discriminate]. simpl in H. injection H as <-.
    now destruct tail.
  - simpl in H.
    change (String c a +:+ tail) with (String c (a +:+ tail)).
    rewrite find_after_cons.
    change (String c (a +:+ tail)) with (String c a +:+ tail).
    destruct (strip_prefix needle (String c a)) as [r|] eqn:E.
    + injection H as ->. now rewrite (strip_prefix_app_some _ _ _ tail E).
    + destruct (mismatch needle (String c a)) eqn:Hm; [|discriminate].
      rewrite (mismatch_strip_prefix _ _ _ Hm). now apply IH.
Qed.

(** A needle that has [e] before any [q] is no prefix of a text free
    of [e] that is followed by [q]. *)
Lemma strip_prefix_guarded (e q : ascii) (needle free tail : string) :
  Ascii.eqb e q = false →
  guarded e q needle = true →
  has_char e free = false →
  starts_with q tail = true →
  strip_prefix needle (free +:+ tail) = None.
Proof.
  intros Heq. revert free. induction needle as [|c needle IH]; intros free Hg Hf Ht;
    [discriminate|].
  simpl in Hg. destruct free as [|x free].
  - destruct tail as [|y tail]; [discriminate|]. simpl in *.
    apply Ascii.eqb_eq in Ht as ->.
    destruct (Ascii.eqb c q) eqn:Ecq; [|reflexivity].
    apply Ascii.eqb_eq in Ecq as ->. rewrite Ascii.eqb_sym, Heq in Hg. discriminate.
  - simpl in *. apply orb_false_elim in Hf as [Hx Hf].
    destruct (Ascii.eqb c x) eqn:Ecx; [|reflexivity].
    apply Ascii.eqb_eq in Ecx as ->. rewrite Hx in Hg. simpl in Hg.
    apply andb_prop in Hg as [_ Hg]. now apply IH.
Qed.

(** A free text that lacks the character [e] of the needle, followed
    by [q], is skipped. *)
Lemma find_after_free (e q : ascii) (needle free tail : string) :
  Ascii.eqb e q = false →
  guarded e q needle = true →
  has_char e free = false →
  starts_with q tail = true →
  find_after needle (free +:+ tail) = find_after needle tail.
Proof.
  intros Heq Hg. induction free as [|x free IH]; intros Hf Ht; [reflexivity|].
  change (String x free +:+ tail) with (String x (free +:+ tail)).
  rewrite find_after_cons.
  change (String x (free +:+ tail)) with (String x free +:+ tail).
  rewrite (strip_prefix_guarded e q) by assumption.
  simpl in Hf. apply orb_false_elim in Hf as [_ Hf]. now apply IH.
Qed.

(** ** The attributes of the generated document *)

(** The text of the two free substitutions. *)
Abbreviation lang_text p := (interpolate id (lang p)).

Ltac skip_known := rewrite clear_of_app by reflexivity.
Ltac skip_free_text :=
  rewrite (find_after_free "=" (ascii_of_nat 34)) by (reflexivity || assumption).
Ltac found_in_known := erewrite locate_app by reflexivity.

Lemma attribute_src (p : TemplateParams) (e : option bool) :
  has_char "=" (lang_text p) = false →
  attribute "src" (getTemplate p e)
  = Some (if flag_set e then "https://www.google.com/recaptcha/enterprise.js"
          else "https://www.google.com/recaptcha/api.js").
Proof.
  intros H. unfold attribute, getTemplate. skip_known. skip_free_text. found_in_known.
  unfold endpoint. destruct (flag_set e); reflexivity.
Qed.

Lemma attribute_data_size (p : TemplateParams) (e : option bool) :
  has_char "=" (lang_text p) = false →
  has_char "=" (siteKey p) = false →
  attribute "data-size" (getTemplate p e) = Some (interpolate size_text (size p)).
Proof.
  intros Hl Hk. unfold attribute, getTemplate, endpoint, badge_rule.
  skip_known. skip_free_text. skip_known.
  destruct (flag_set e); skip_known; skip_known;
    destruct (flag_set (hideBadge p)); skip_known; skip_known;
    skip_free_text; found_in_known;
    destruct (size p) as [[]|]; reflexivity.
Qed.

(** X7: the lang attribute of the html element, found by scanning the
    generated document, is the configured language whenever that
    holds no double quote; for a configuration without a language it
    is the word undefined: getTemplate has no fallback of its own. *)
Theorem lang_attribute_read_back (p : TemplateParams) (e : option bool) :
  has_quote (lang_text p) = false →
  attribute "lang" (getTemplate p e) = Some (lang_text p)
  ∧ (lang p = None → attribute "lang" (getTemplate p e) = Some "undefined").
Proof.
  intros H.
  assert (G : attribute "lang" (getTemplate p e) = Some (lang_text p)).
  { unfold attribute, getTemplate. found_in_known. simpl option_map. f_equal.
    change (attribute_value (lang_text p +:+ after_lang p e) = lang_text p).
    destruct (after_lang_closes p e) as [rest ->]. now apply attribute_value_closed. }
  split; [exact G|]. intros Hl. rewrite G, Hl. reflexivity.
Qed.

(** X8: the widget script is loaded from the api endpoint unless
    enterprise is true, in which case from the enterprise endpoint;
    undefined and false are alike. The two documents differ in that
    path segment alone. (For a language free of the equals sign, so
    that no attribute is written before the script element.) *)
Theorem script_source_by_enterprise (p : TemplateParams) (e : option bool) :
  has_char "=" (lang_text p) = false →
  attribute "src" (getTemplate p e)
  = Some (if flag_set e then "https://www.google.com/recaptcha/enterprise.js"
          else "https://www.google.com/recaptcha/api.js")
  ∧ (flag_set e = true ↔ e = Some true)
  ∧ (∃ before after, ∀ e', getTemplate p e' = before +:+ endpoint e' +:+ after).
Proof.
  intros H. split; [|split].
  - now apply attribute_src.
  - destruct e as [[]|]; simpl; split; congruence.
  - exists (text_before_lang +:+ lang_text p +:+ text_before_endpoint). eexists. intros e'.
    unfold getTemplate. rewrite !append_assoc. reflexivity.
Qed.

(** X9: the site key comes back as configured: for a language free of
    the equals sign and a site key free of the double quote, the
    data-sitekey attribute found by scanning the generated document
    is the site key, whatever the other fields. *)
Theorem siteKey_attribute_read_back (p : TemplateParams) (e : option bool) :
  has_char "=" (lang_text p) = false →
  has_quote (siteKey p) = false →
  attribute "data-sitekey" (getTemplate p e) = Some (siteKey p).
Proof.
  intros Hl Hk. unfold attribute, getTemplate, endpoint, badge_rule.
  skip_known. skip_free_text. skip_known.
  destruct (flag_set e); skip_known; skip_known;
    destruct (flag_set (hideBadge p)); skip_known; found_in_known;
    simpl option_map; f_equal;
    change (attribute_value (siteKey p +:+ after_siteKey p) = siteKey p);
    destruct (after_siteKey_closes p) as [rest ->]; now apply attribute_value_closed.
Qed.

(** X10: the wiring of the widget is not disturbed by the values: for
    a language and a site key free of the equals sign, the mount
    element names the three functions the script of the document
    defines (onSubmit, onError, onExpired) as its callbacks, and its
    data-size is the text of the size, the word undefined when the
    size is absent. *)
Theorem widget_callbacks_wired (p : TemplateParams) (e : option bool) :
  has_char "=" (lang_text p) = false →
  has_char "=" (siteKey p) = false →
  attribute "data-callback" (getTemplate p e) = Some "onSubmit"
  ∧ attribute "data-size" (getTemplate p e) = Some (interpolate size_text (size p))
  ∧ attribute "data-error-callback" (getTemplate p e) = Some "onError"
  ∧ attribute "data-expired-callback" (getTemplate p e) = Some "onExpired".
Proof.
  intros Hl Hk.
  split; [|split; [now apply attribute_data_size|]];
    unfold attribute, getTemplate, endpoint, badge_rule; [|split].
  - skip_known. skip_free_text. skip_known.
    destruct (flag_set e); skip_known; skip_known;
      destruct (flag_set (hideBadge p)); skip_known; skip_known;
      skip_free_text; found_in_known; reflexivity.
  - skip_known. skip_free_text. skip_known.
    destruct (flag_set e); skip_known; skip_known;
      destruct (flag_set (hideBadge p)); skip_known; skip_known;
      skip_free_text; skip_known;
      destruct (size p) as [[]|]; simpl interpolate;
      rewrite <- (append_assoc _ text_before_debug);
      found_in_known; reflexivity.
  - skip_known. skip_free_text. skip_known.
    destruct (flag_set e); skip_known; skip_known;
      destruct (flag_set (hideBadge p)); skip_known; skip_known;
      skip_free_text; skip_known;
      destruct (size p) as [[]|]; simpl interpolate;
      rewrite <- (append_assoc _ text_before_debug);
      found_in_known; reflexivity.
Qed.

(** X11: the debug block is written in debug mode only. For a
    language and a site key free of the equals sign, the generated
    document has an onclick attribute (the one that re-renders the
    widget) exactly when debug is set, and none otherwise. *)
Theorem debug_block_only_in_debug (p : TemplateParams) (e : option bool) :
  has_char "=" (lang_text p) = false →
  has_char "=" (siteKey p) = false →
  attribute "onclick" (getTemplate p e)
  = if flag_set (debug p) then Some "rerenderRecaptcha()" else None.
Proof.
  intros Hl Hk. unfold attribute, getTemplate, endpoint, badge_rule.
  skip_known. skip_free_text. skip_known.
  destruct (flag_set e); skip_known; skip_known;
    destruct (flag_set (hideBadge p)); skip_known; skip_known;
    skip_free_text; skip_known;
    destruct (size p) as [[]|]; simpl interpolate;
    rewrite <- (append_assoc _ text_before_debug); skip_known;
    destruct (flag_set (debug p));
    first [found_in_known; reflexivity | skip_known; reflexivity].
Qed.

(** X12: the badge of the service is hidden on request only. For a
    language and a site key free of the opening brace, the rule that
    hides the badge occurs in the generated document exactly when
    hideBadge is true. *)
Theorem badge_rule_only_on_request (p : TemplateParams) (e : option bool) :
  has_char "{" (lang_text p) = false →
  has_char "{" (siteKey p) = false →
  contains ".grecaptcha-badge{display:none}" (getTemplate p e) = flag_set (hideBadge p).
Proof.
  intros Hl Hk. unfold contains, getTemplate, endpoint, badge_rule.
  skip_known.
  rewrite (find_after_free "{" (ascii_of_nat 34)) by (reflexivity || assumption).
  skip_known.
  destruct (flag_set e); skip_known; skip_known;
    (destruct (flag_set (hideBadge p)); [found_in_known; reflexivity|]);
    skip_known; skip_known;
    rewrite (find_after_free "{" (ascii_of_nat 34)) by (reflexivity || assumption);
    skip_known;
    destruct (size p) as [[]|]; simpl interpolate;
    rewrite <- (append_assoc _ text_before_debug); skip_known;
    destruct (flag_set (debug p)); skip_known; reflexivity.
Qed.

End DocumentScan.

(** * Properties of the document of the component *)
Section RenderProperties.
Import Scan Render.

Lemma append_inv_head (a x y : string) : a +:+ x = a +:+ y → x = y.
Proof. induction a as [|c a IH]; simpl; intros H; [exact H | injection H as H; now apply IH]. Qed.

(** X13: the defaults reach the document. For a language and a site
    key free of the equals sign, the document of a component whose
    host gave no size asks for the invisible widget, and whatever the
    host gave the data-size attribute is one of the three sizes,
    never the word undefined; without an enterprise prop the script
    comes from the api endpoint. *)
Theorem defaults_reach_the_document (props : RecaptchaProps) :
  has_char "=" (Template.interpolate id (lang props)) = false →
  has_char "=" (siteKey props) = false →
  attribute "data-size" (html (defaultProps props))
  = Some (Template.size_text (default Template.invisible (size props)))
  ∧ attribute "data-size" (html (defaultProps props)) ≠ Some "undefined"
  ∧ attribute "src" (html (defaultProps props))
    = Some (if default false (enterprise props)
            then "https://www.google.com/recaptcha/enterprise.js"
            else "https://www.google.com/recaptcha/api.js").
Proof.
  intros Hl Hk.
  assert (Hs : attribute "data-size" (html (defaultProps props))
               = Some (Template.size_text (default Template.invisible (size props)))).
  { unfold html. rewrite attribute_data_size by assumption. reflexivity. }
  split; [exact Hs|]. split.
  - rewrite Hs. destruct (size props) as [[]|]; discriminate.
  - unfold html. rewrite attribute_src by assumption. simpl.
    destruct (enterprise props) as [[]|]; reflexivity.
Qed.

Lemma html_by_debug (props : RecaptchaProps) :
  ∃ before,
    html props
    = before +:+ (if Template.flag_set (debug props) then Template.debug_block else EmptyString)
      +:+ Template.text_after_debug
    ∧ ∀ other, html_deps other = html_deps props →
        html other
        = before +:+ (if Template.flag_set (debug other) then Template.debug_block
                      else EmptyString)
          +:+ Template.text_after_debug.
Proof.
  eexists. split.
  - unfold html, Template.getTemplate. simpl. rewrite <- !append_assoc. reflexivity.
  - intros other H. unfold html_deps in H.
    injection H as Hb Hk Hz Ht Hl He.
    unfold html, Template.getTemplate, Template.badge_rule. simpl.
    rewrite Hb, Hk, Hz, Hl, He, <- !append_assoc. reflexivity.
Qed.

Lemma rendered_same_deps (first : RecaptchaProps) (value : string)
    (later : list RecaptchaProps) (last : RecaptchaProps) :
  Forall (λ q, html_deps q = html_deps first) (later ++ [last]) →
  rendered later last (Some (html_deps first, value)) = value.
Proof.
  induction later as [|q later IH]; intros H.
  - cbn [app] in H. rewrite Forall_singleton in H.
    cbn [rendered useMemo_html]. now rewrite bool_decide_true by (symmetry; exact H).
  - cbn [app] in H. rewrite Forall_cons in H. destruct H as [Hq H].
    cbn [rendered useMemo_html]. rewrite bool_decide_true by (symmetry; exact Hq).
    now apply IH.
Qed.

(** X14: debug is not among the dependencies of the memoised
    document. After a first render, renders whose props differ from
    the first in debug alone keep returning the document of the first
    render; and when debug was switched, that is not the document
    getTemplate gives for the new props. *)
Theorem debug_change_keeps_old_document
    (first : RecaptchaProps) (later : list RecaptchaProps) (last : RecaptchaProps) :
  Forall (λ q, html_deps q = html_deps first) (later ++ [last]) →
  rendered (first :: later) last None = html first
  ∧ (Template.flag_set (debug last) ≠ Template.flag_set (debug first) →
     html last ≠ html first).
Proof.
  intros H. split.
  - change (rendered later last (Some (html_deps first, html first)) = html first).
    now apply rendered_same_deps.
  - intros Hd Heq.
    assert (Hlast : html_deps last = html_deps first).
    { rewrite Forall_app, Forall_singleton in H. now destruct H as [_ H]. }
    destruct (html_by_debug first) as (before & Hfirst & Hother).
    rewrite (Hother _ Hlast), Hfirst in Heq.
    apply append_inv_head in Heq.
    destruct (Template.flag_set (debug last)), (Template.flag_set (debug first));
      try congruence;
      apply (f_equal String.length) in Heq; vm_compute in Heq; discriminate.
Qed.

End RenderProperties.

(** * The callbacks of the document, end to end *)
Section EndToEnd.
Import Json Controller Bridge.
Local Open Scope list_scope.

Variable JSON_parse : string → option json.
Variable JSON_stringify : json → string.
Variable p : props.

(** X15: an error the widget reports without a reason never reaches
    the host. When the error callback of the document is called with
    no argument, or with a falsy one, the text it posts parses to an
    object without a truthy error: the controller calls no callback,
    leaves the overlay as it is, and clears the timer of the ref, so
    that no timeout will report the failure either. *)
Theorem error_without_reason_is_lost (reason : option json) (s : state) :
  JSON_parse (onError JSON_stringify reason) = Some (JObject (written [("error", reason)])) →
  truthy_property reason = false →
  step JSON_parse p (Message (onError JSON_stringify reason)) s = (timer_cleared s, []).
Proof.
  intros H Hf. rewrite step_message_eq, H.
  assert (Hp : ∀ k, present k (written [("error", reason)]) = false).
  { intros k. unfold present. destruct reason as [v|]; [|reflexivity].
    simpl in Hf. destruct k; simpl; try reflexivity. exact Hf. }
  rewrite !outcome_effects_absent by apply Hp.
  unfold after_message. now rewrite !Hp.
Qed.

(** X16: the expiry of a token reaches the host. The text the expired
    callback of the document posts makes the controller clear the
    timer of the ref, hide the overlay, reset the widget, call onClose
    and then onExpire, once and without argument; onVerify and onError
    are not called. *)
Theorem expired_callback_reaches_host (s : state) :
  JSON_parse (onExpired JSON_stringify) = Some (JObject [("expired", JString "expired")]) →
  step JSON_parse p (Message (onExpired JSON_stringify)) s
  = (closed (timer_cleared s),
     close_effects p s ++ (if onExpire p then [CallOnExpire] else []))
  ∧ calls is_onExpire (snd (step JSON_parse p (Message (onExpired JSON_stringify)) s))
    = (if onExpire p then 1 else 0)
  ∧ calls is_onVerify (snd (step JSON_parse p (Message (onExpired JSON_stringify)) s)) = 0
  ∧ calls is_onError (snd (step JSON_parse p (Message (onExpired JSON_stringify)) s)) = 0.
Proof.
  intros H.
  assert (Hs : step JSON_parse p (Message (onExpired JSON_stringify)) s
               = (closed (timer_cleared s),
                  close_effects p s ++ (if onExpire p then [CallOnExpire] else []))).
  { rewrite step_message_eq, H. unfold after_message, outcome_effects, present. simpl.
    now rewrite app_nil_r. }
  rewrite Hs. split; [reflexivity|]. simpl. unfold close_effects.
  repeat split; destruct (webView_current s), (onClose p), (onExpire p); reflexivity.
Qed.

End EndToEnd.

(** * The further properties on their inputs *)
Section Trials.
Import Json Wire Controller Component Scenario Trial.
Local Open Scope list_scope.

(** X1 (witness): the text null, after open(). *)
Lemma non_object_payload_ignored_witness :
  parse_trial "null" = Some JNull
  ∧ step parse_trial host (Message "null") (fst (play [Open]))
    = (timer_cleared (fst (play [Open])), [ConsoleWarn TypeError]).
Proof.
  split; [reflexivity|].
  apply (non_object_payload_ignored parse_trial host "null" JNull (fst (play [Open])) eq_refl).
  intros ms. discriminate.
Defined.

(** X2 (witness): a verify message with the empty token, after open(). *)
Lemma falsy_payload_silences_timeout_witness :
  parse_message empty_token_message = Some (JObject [("verify", JString EmptyString)])
  ∧ step parse_message host (Message empty_token_message) (fst (play [Open]))
    = (timer_cleared (fst (play [Open])), []).
Proof.
  split; [reflexivity|].
  exact (proj1 (falsy_payload_silences_timeout parse_message host empty_token_message _
                  (fst (play [Open])) eq_refl eq_refl eq_refl eq_refl eq_refl)).
Defined.

(** X3 (witness): open(), a verify message and close() before the
    WebView ref is set. *)
Lemma no_script_while_detached_witness :
  webView_current detached = false
  ∧ calls is_inject
      (snd (run parse_message host [Open; Message verify_message; Close] detached)) = 0.
Proof.
  split; [reflexivity|].
  exact (proj2 (no_script_while_detached parse_message host
                  [Open; Message verify_message; Close] detached eq_refl)).
Defined.

(** X4 (witness): a verify message and a close() after open(). *)
Lemma loading_stays_after_open_witness :
  forallb message_or_close [Message verify_message; Close] = true
  ∧ renderLoading plain_loader
      (fst (run parse_message host [Open; Message verify_message; Close] mounted))
    = ActivityIndicator.
Proof.
  split; [reflexivity|].
  pose proof (loading_stays_after_open parse_message host plain_loader
                [Message verify_message; Close] mounted eq_refl) as (_ & H & _).
  exact H.
Defined.

(** X5 (witness): the mounted component, loaded and not. *)
Lemma loaded_flag_is_never_read_witness :
  forget_loaded mounted = forget_loaded (set_captchaLoaded_current true mounted)
  ∧ snd (run parse_message host [Open; Message verify_message] mounted)
    = snd (run parse_message host [Open; Message verify_message]
             (set_captchaLoaded_current true mounted)).
Proof.
  split; [reflexivity|].
  exact (proj1 (loaded_flag_is_never_read parse_message host [Open; Message verify_message]
                  mounted (set_captchaLoaded_current true mounted) eq_refl)).
Defined.

(** X6 (witness): two calls of open() on the mounted component, then
    a verify message. *)
Lemma every_open_arms_a_timer_witness :
  fresh mounted
  ∧ size (timers (fst (run parse_message host (replicate 2 Open) mounted)))
    = size (timers mounted) + 2
  ∧ size (timers (fst (step parse_message host (Message verify_message)
                         (fst (run parse_message host (replicate 2 Open) mounted)))))
    = size (timers mounted) + 1.
Proof.
  assert (H : fresh mounted) by (intros h _; apply lookup_empty).
  pose proof (every_open_arms_a_timer parse_message host 1 verify_message mounted H)
    as (H1 & H2 & _).
  split; [exact H|]. split; [exact H1 | exact H2].
Defined.

(** X7 (witness): a configuration without a language. *)
Lemma lang_attribute_read_back_witness :
  has_quote (Template.interpolate id (Template.lang bare_params)) = false
  ∧ attribute "lang" (Template.getTemplate bare_params None) = Some "undefined".
Proof.
  split; [reflexivity|].
  exact (proj2 (lang_attribute_read_back bare_params None eq_refl) eq_refl).
Defined.

(** X8 (witness): the enterprise variant. *)
Lemma script_source_by_enterprise_witness :
  Scan.has_char "=" (Template.interpolate id (Template.lang bare_params)) = false
  ∧ attribute "src" (Template.getTemplate bare_params (Some true))
    = Some "https://www.google.com/recaptcha/enterprise.js".
Proof.
  split; [reflexivity|].
  exact (proj1 (script_source_by_enterprise bare_params (Some true) eq_refl)).
Defined.

(** X9 (witness): a configuration with every field set. *)
Lemma siteKey_attribute_read_back_witness :
  Scan.has_char "=" (Template.interpolate id (Template.lang full_params)) = false
  ∧ has_quote (Template.siteKey full_params) = false
  ∧ attribute "data-sitekey" (Template.getTemplate full_params None) = Some "6Lc_KEY-01".
Proof.
  split; [reflexivity|]. split; [reflexivity|].
  exact (siteKey_attribute_read_back full_params None eq_refl eq_refl).
Defined.

(** X10 (witness): the same configuration. *)
Lemma widget_callbacks_wired_witness :
  Scan.has_char "=" (Template.siteKey full_params) = false
  ∧ attribute "data-callback" (Template.getTemplate full_params None) = Some "onSubmit"
  ∧ attribute "data-size" (Template.getTemplate full_params None) = Some "compact".
Proof.
  pose proof (widget_callbacks_wired full_params None eq_refl eq_refl) as (H1 & H2 & _).
  split; [reflexivity|]. split; [exact H1 | exact H2].
Defined.

(** X11 (witness): no debug, no onclick. *)
Lemma debug_block_only_in_debug_witness :
  Scan.has_char "=" (Template.siteKey bare_params) = false
  ∧ attribute "onclick" (Template.getTemplate bare_params None) = None.
Proof.
  split; [reflexivity|].
  exact (debug_block_only_in_debug bare_params None eq_refl eq_refl).
Defined.

(** X12 (witness): the badge hidden on request. *)
Lemma badge_rule_only_on_request_witness :
  Scan.has_char "{" (Template.siteKey full_params) = false
  ∧ Scan.contains ".grecaptcha-badge{display:none}" (Template.getTemplate full_params None)
    = true.
Proof.
  split; [reflexivity|].
  exact (badge_rule_only_on_request full_params None eq_refl eq_refl).
Defined.

(** X13 (witness): a host that gives a site key and nothing else. *)
Lemma defaults_reach_the_document_witness :
  Scan.has_char "=" (Render.siteKey bare_props) = false
  ∧ attribute "data-size" (Render.html (Render.defaultProps bare_props)) = Some "invisible".
Proof.
  split; [reflexivity|].
  exact (proj1 (defaults_reach_the_document bare_props eq_refl eq_refl)).
Defined.

(** X14 (witness): debug switched on at the second render. *)
Lemma debug_change_keeps_old_document_witness :
  Render.html_deps debug_props = Render.html_deps bare_props
  ∧ Render.rendered [bare_props] debug_props None = Render.html bare_props
  ∧ Render.html debug_props ≠ Render.html bare_props.
Proof.
  assert (H : Forall (λ q, Render.html_deps q = Render.html_deps bare_props)
                ([] ++ [debug_props])) by (repeat constructor).
  pose proof (debug_change_keeps_old_document bare_props [] debug_props H) as [H1 H2].
  split; [reflexivity|]. split; [exact H1|]. apply H2. simpl. discriminate.
Defined.

(** X15 (witness): the error callback called without argument. *)
Lemma error_without_reason_is_lost_witness :
  Bridge.onError stringify_trial None = "{}"
  ∧ parse_message "{}" = Some (JObject [])
  ∧ step parse_message host (Message (Bridge.onError stringify_trial None)) (fst (play [Open]))
    = (timer_cleared (fst (play [Open])), []).
Proof.
  split; [reflexivity|]. split; [reflexivity|].
  exact (error_without_reason_is_lost parse_message stringify_trial host None
           (fst (play [Open])) eq_refl eq_refl).
Defined.

(** X16 (witness): the expired callback, after open(). *)
Lemma expired_callback_reaches_host_witness :
  Bridge.onExpired stringify_trial = expired_message
  ∧ snd (step parse_message host (Message (Bridge.onExpired stringify_trial))
           (fst (play [Open])))
    = [InjectJavaScript grecaptcha_reset; CallOnClose; CallOnExpire].
Proof.
  pose proof (expired_callback_reaches_host parse_message stringify_trial host
                (fst (play [Open])) eq_refl) as (H & _).
  split; [reflexivity|]. rewrite H. reflexivity.
Defined.

(** X17 (witness): the onReady message, after open() on the mounted
    component. *)
Lemma overlay_left_without_timeout_witness :
  timers mounted = ∅
  ∧ carries_outcome parse_message ready_message = false
  ∧ timers (fst (run parse_message host [Open; Message ready_message] mounted)) = ∅
  ∧ containerOpacity (fst (run parse_message host [Open; Message ready_message] mounted)) = 1%Z.
Proof.
  pose proof (overlay_left_without_timeout parse_message host ready_message mounted
                eq_refl eq_refl) as ([Hv _] & Ht & _).
  split; [reflexivity|]. split; [reflexivity|]. split; [exact Ht | exact Hv].
Defined.

End Trials.
